(** * Event broadcast hook module: a shallow embedding and its properties

    The development follows
    [amplifier_module_hooks_event_broadcast/__init__.py]: the
    [EventBroadcaster] class, its pattern predicate, its hook handler, the
    registration and unregistration loops and [mount].  The host kernel
    (hook registry, capability registry, the capabilities themselves) is
    not part of the module; it is an interface here, with the test double
    of [tests/conftest.py] as one instance. *)

From Stdlib Require Import String Ascii List Bool ZArith Lia DecimalString.
From stdpp Require Import base strings gmap.
Import ListNotations.

Local Open Scope string_scope.
Local Open Scope list_scope.

(* ===================================================================== *)
(** ** Python strings *)
(* ===================================================================== *)

(** A [str] is taken as the sequence of its UTF-8 bytes.  The asterisk is
    one byte that occurs in the encoding of no other character, and a
    string starts with another exactly when its bytes do, so the three
    operations below agree with Python's on code points. *)
Module PyStr.

(** [c in s] for a one-character needle. *)
Fixpoint contains (c : ascii) (s : string) : bool :=
  match s with
  | EmptyString => false
  | String a s' => if Ascii.eqb a c then true else contains c s'
  end.

(** [s.rstrip(c)]: every trailing occurrence of [c] is removed. *)
Fixpoint rstrip (c : ascii) (s : string) : string :=
  match s with
  | EmptyString => EmptyString
  | String a s' =>
      match rstrip c s' with
      | EmptyString => if Ascii.eqb a c then EmptyString else String a EmptyString
      | r => String a r
      end
  end.

(** [s.startswith(p)]. *)
Definition startswith (s p : string) : bool := String.prefix p s.

(** [x in l] on a list of strings. *)
Definition in_list (x : string) (l : list string) : bool :=
  existsb (String.eqb x) l.

(** [str(n)] for a length. *)
Definition of_nat (n : nat) : string := NilEmpty.string_of_uint (Nat.to_uint n).

(** The text before the first occurrence of [c] (all of [s] when [c]
    does not occur).  The source never computes this; it is the other
    reading of a pattern's prefix, to be compared with [rstrip]. *)
Fixpoint before_first (c : ascii) (s : string) : string :=
  match s with
  | EmptyString => EmptyString
  | String a s' => if Ascii.eqb a c then EmptyString else String a (before_first c s')
  end.

(** A string made of [c] only. *)
Fixpoint all_char (c : ascii) (s : string) : bool :=
  match s with
  | EmptyString => true
  | String a s' => Ascii.eqb a c && all_char c s'
  end.

End PyStr.

Definition star : ascii := "*"%char.

(* ===================================================================== *)
(** ** Exceptions, results, log records *)
(* ===================================================================== *)

(** A raised Python exception.  [derives_Exception] tells whether its
    class is a subclass of [Exception], which is what both [except]
    clauses of the module name; [KeyboardInterrupt], [SystemExit] and
    [asyncio.CancelledError] derive from [BaseException] only. *)
Record PyExc := mkExc {
  exc_class : string;
  derives_Exception : bool;
  exc_str : string
}.

Inductive result (A : Type) :=
| Ok (a : A)
| Raise (e : PyExc).
Arguments Ok {A} a.
Arguments Raise {A} e.

Inductive log_level := DEBUG | INFO | WARNING.

Record log_record := mkLog { log_lvl : log_level; log_msg : string }.

Definition is_debug (r : log_record) : bool :=
  match log_lvl r with DEBUG => true | _ => false end.

(** [HookResult(action=...)]. *)
Record HookResult := mkHookResult { action : string }.

Definition continue_ : HookResult := mkHookResult "continue".

(** The only handler the module ever passes to [hooks.register]. *)
Inductive hook_handler := Broadcast_handler.

(** What a call of a capability hands back when it does not raise: an
    awaitable, or a value that cannot be awaited, of which the name of
    its type is kept (["NoneType"] for [None]). *)
Inductive py_value (Awaitable : Type) :=
| Plain (type_name : string)
| AwaitableValue (a : Awaitable).
Arguments Plain {Awaitable} type_name.
Arguments AwaitableValue {Awaitable} a.

(* ===================================================================== *)
(** ** The host interface *)
(* ===================================================================== *)

(** [ModuleCoordinator] as the module uses it.  [Host] is the state of the
    kernel, [Capability] a registered (non-[None]) capability value,
    [Awaitable] what an asynchronous capability returns, [Handle] the
    unregister callable returned by [hooks.register], [Payload] the event
    data.  Every operation may change the host state; the lookup does
    not. *)
Class Coordinator (Host Capability Awaitable Handle Payload : Type) := {
  get_capability : string -> Host -> option Capability;
  iscoroutinefunction : Capability -> bool;
  call_capability :
    Capability -> string -> Payload -> Host -> result (py_value Awaitable) * Host;
  await_ : Awaitable -> Host -> result unit * Host;
  hooks_register : string -> hook_handler -> Z -> string -> Host -> Handle * Host;
  call_unregister : Handle -> Host -> result unit * Host
}.

(** Every call the module makes into the host, in order. *)
Inductive host_call (Capability Awaitable Handle Payload : Type) :=
| GetCapability (name : string)
| CallCapability (c : Capability) (event : string) (data : Payload)
| Await (a : Awaitable)
| HooksRegister (event : string) (h : hook_handler) (priority : Z) (name : string)
                (returned : Handle)
| CallUnregister (u : Handle).
Arguments GetCapability {Capability Awaitable Handle Payload} name.
Arguments CallCapability {Capability Awaitable Handle Payload} c event data.
Arguments Await {Capability Awaitable Handle Payload} a.
Arguments HooksRegister {Capability Awaitable Handle Payload} event h priority name returned.
Arguments CallUnregister {Capability Awaitable Handle Payload} u.

(** The world a method runs in: the host, the calls made so far, the log. *)
Record World (Host Capability Awaitable Handle Payload : Type) := mkWorld {
  host : Host;
  calls : list (host_call Capability Awaitable Handle Payload);
  logs : list log_record
}.
Arguments mkWorld {Host Capability Awaitable Handle Payload} host calls logs.
Arguments host {Host Capability Awaitable Handle Payload} w.
Arguments calls {Host Capability Awaitable Handle Payload} w.
Arguments logs {Host Capability Awaitable Handle Payload} w.

(* ===================================================================== *)
(** ** Configuration *)
(* ===================================================================== *)

Definition DEFAULT_EVENTS : list string :=
  [ "content_block:start";
    "content_block:delta";
    "content_block:end";
    "tool:pre";
    "tool:post";
    "tool:error";
    "orchestrator:complete";
    "prompt:submit";
    "provider:request";
    "session:start";
    "session:end";
    "error:tool";
    "error:provider";
    "error:orchestration";
    "user:notification" ].

(** The [config] dict: the two keys the module reads, each present or
    absent. *)
Record Config := mkConfig {
  cfg_events : option (list string);
  cfg_capability_name : option string
}.

(** [config.get(key, default)]. *)
Definition dict_get {A : Type} (entry : option A) (default : A) : A :=
  match entry with
  | Some v => v
  | None => default
  end.

Definition empty_config : Config := mkConfig None None.

(* ===================================================================== *)
(** ** The module *)
(* ===================================================================== *)

(** The fields of an [EventBroadcaster] instance.  [_unregister_funcs] is
    the only one a method assigns after construction. *)
Record EventBroadcaster (Handle : Type) := mkBroadcaster {
  config : Config;
  _unregister_funcs : list Handle;
  events : list string;
  event_patterns : list string;
  exact_events : list string;
  capability_name : string
}.
Arguments mkBroadcaster {Handle} config _unregister_funcs events event_patterns
  exact_events capability_name.
Arguments config {Handle} self : rename.
Arguments _unregister_funcs {Handle} self : rename.
Arguments events {Handle} self : rename.
Arguments event_patterns {Handle} self : rename.
Arguments exact_events {Handle} self : rename.
Arguments capability_name {Handle} self : rename.

(** Assignment to the list held in [self._unregister_funcs]; [append] and
    [clear] are the two the module performs. *)
Definition with_unregister_funcs {Handle : Type} (self : EventBroadcaster Handle)
    (funcs : list Handle) : EventBroadcaster Handle :=
  mkBroadcaster (config self) funcs (events self)
    (event_patterns self) (exact_events self) (capability_name self).

Definition append_unregister {Handle : Type} (self : EventBroadcaster Handle) (u : Handle)
  : EventBroadcaster Handle :=
  with_unregister_funcs self (_unregister_funcs self ++ [u]).

Definition clear_unregister {Handle : Type} (self : EventBroadcaster Handle)
  : EventBroadcaster Handle :=
  with_unregister_funcs self [].

(** The assignments of [EventBroadcaster.__init__]. *)
Definition new_broadcaster {Handle : Type} (config : Config) : EventBroadcaster Handle :=
  let events := dict_get (cfg_events config) DEFAULT_EVENTS in
  let event_patterns := List.filter (fun e => PyStr.contains star e) events in
  let exact_events := List.filter (fun e => negb (PyStr.contains star e)) events in
  let capability_name := dict_get (cfg_capability_name config) "broadcast" in
  mkBroadcaster config [] events event_patterns exact_events capability_name.

(** The suffixes a wildcard pattern is expanded with. *)
Definition SUFFIXES : list string :=
  ["start"; "delta"; "end"; "pre"; "post"; "error"; "complete"].

(** The [for pattern in self.event_patterns] loop of [_matches_pattern],
    with its early [return True]. *)
Fixpoint matches_some_pattern (patterns : list string) (event : string) : bool :=
  match patterns with
  | [] => false
  | pattern :: rest =>
      let prefix := PyStr.rstrip star pattern in
      if PyStr.startswith event prefix then true
      else matches_some_pattern rest event
  end.

Definition _matches_pattern {Handle : Type} (self : EventBroadcaster Handle)
    (event : string) : bool :=
  if PyStr.in_list event (exact_events self) then true
  else matches_some_pattern (event_patterns self) event.

Section Module_.

Context {Host Capability Awaitable Handle Payload : Type}.
Context {coordinator : Coordinator Host Capability Awaitable Handle Payload}.

Abbreviation world := (World Host Capability Awaitable Handle Payload).
Abbreviation hcall := (host_call Capability Awaitable Handle Payload).
Abbreviation instance := (EventBroadcaster Handle).

(** Computations of the module: they read and change the world and end
    with a value or a raised exception. *)
Definition M (A : Type) : Type := world -> result A * world.

Definition ret {A : Type} (a : A) : M A := fun w => (Ok a, w).

Definition bind {A B : Type} (m : M A) (k : A -> M B) : M B :=
  fun w =>
    match m w with
    | (Ok a, w') => k a w'
    | (Raise e, w') => (Raise e, w')
    end.

Definition raise {A : Type} (e : PyExc) : M A := fun w => (Raise e, w).

(** [try: body  except Exception as e: handler(e)].  An exception whose
    class does not derive from [Exception] passes through. *)
Definition try_except_Exception {A : Type} (body : M A) (handler : PyExc -> M A) : M A :=
  fun w =>
    match body w with
    | (Ok a, w') => (Ok a, w')
    | (Raise e, w') =>
        if derives_Exception e then handler e w' else (Raise e, w')
    end.

Notation "x <- m ;; k" := (bind m (fun x => k))
  (at level 100, m at next level, right associativity).
Notation "m ;;; k" := (bind m (fun _ => k))
  (at level 100, right associativity).

(** Primitive steps: one log record, or one call into the host, which is
    appended to [calls]. *)
Definition log (lvl : log_level) (msg : string) : M unit :=
  fun w => (Ok tt, mkWorld (host w) (calls w) (logs w ++ [mkLog lvl msg])).

Definition do_get_capability (name : string) : M (option Capability) :=
  fun w =>
    (Ok (get_capability name (host w)),
     mkWorld (host w) (calls w ++ [GetCapability name]) (logs w)).

Definition do_call (c : Capability) (event : string) (data : Payload)
  : M (py_value Awaitable) :=
  fun w =>
    let '(r, h) := call_capability c event data (host w) in
    (r, mkWorld h (calls w ++ [CallCapability c event data]) (logs w)).

(** [await v]: a value that is not awaitable raises [TypeError], whose
    message names the type of the value (the wording of CPython 3.5 to
    3.13). *)
Definition await_TypeError (type_name : string) : PyExc :=
  mkExc "TypeError" true
    ("object " +:+ type_name +:+ " can't be used in 'await' expression").

Definition do_await (v : py_value Awaitable) : M unit :=
  match v with
  | Plain type_name => raise (await_TypeError type_name)
  | AwaitableValue a =>
      fun w =>
        let '(r, h) := await_ a (host w) in
        (r, mkWorld h (calls w ++ [Await a]) (logs w))
  end.

Definition do_register (event : string) (handler : hook_handler) (priority : Z)
    (name : string) : M Handle :=
  fun w =>
    let '(u, h) := hooks_register event handler priority name (host w) in
    (Ok u, mkWorld h (calls w ++ [HooksRegister event handler priority name u]) (logs w)).

Definition do_unregister (u : Handle) : M unit :=
  fun w =>
    let '(r, h) := call_unregister u (host w) in
    (r, mkWorld h (calls w ++ [CallUnregister u]) (logs w)).

(** [for x in xs: self = body(x, self)]. *)
Fixpoint for_each {A S : Type} (xs : list A) (body : A -> S -> M S) (s : S) : M S :=
  match xs with
  | [] => ret s
  | x :: rest => s' <- body x s ;; for_each rest body s'
  end.

(** [EventBroadcaster.__init__(coordinator, config)]: the instance it
    builds ([new_broadcaster], above) and its one log record. *)
Definition __init__ (config : Config) : M instance :=
  let self := new_broadcaster config in
  log DEBUG ("EventBroadcaster configured for " +:+ PyStr.of_nat (length (events self))
             +:+ " event patterns") ;;;
  ret self.

(** [EventBroadcaster._broadcast_handler(event, data)]. *)
Definition _broadcast_handler (self : instance) (event : string) (data : Payload)
  : M HookResult :=
  if negb (_matches_pattern self event) then ret continue_
  else
    broadcast <- do_get_capability (capability_name self) ;;
    match broadcast with
    | None =>
        log DEBUG ("No '" +:+ capability_name self
                   +:+ "' capability registered, skipping broadcast for " +:+ event) ;;;
        ret continue_
    | Some broadcast =>
        try_except_Exception
          ((if iscoroutinefunction broadcast then
              v <- do_call broadcast event data ;; do_await v
            else
              do_call broadcast event data ;;; ret tt) ;;;
           log DEBUG ("Broadcast event: " +:+ event))
          (fun e =>
             log WARNING ("Failed to broadcast event " +:+ event +:+ ": " +:+ exc_str e)) ;;;
        ret continue_
    end.

(** The body of the first loop of [register_handlers]. *)
Definition register_exact (event : string) (self : instance) : M instance :=
  unregister <- do_register event Broadcast_handler 1000 ("event-broadcast:" +:+ event) ;;
  let self := append_unregister self unregister in
  log DEBUG ("Registered broadcast handler for: " +:+ event) ;;;
  ret self.

(** The body of the inner loop over the suffixes. *)
Definition register_suffix (prefix : string) (suffix : string) (self : instance)
  : M instance :=
  let event := prefix +:+ suffix in
  unregister <- do_register event Broadcast_handler 1000 ("event-broadcast:" +:+ event) ;;
  ret (append_unregister self unregister).

(** The body of the second loop. *)
Definition register_pattern (pattern : string) (self : instance) : M instance :=
  let prefix := PyStr.rstrip star pattern in
  self <- for_each SUFFIXES (register_suffix prefix) self ;;
  log DEBUG ("Registered broadcast handlers for pattern: " +:+ pattern) ;;;
  ret self.

(** [EventBroadcaster.register_handlers()]. *)
Definition register_handlers (self : instance) : M instance :=
  self <- for_each (exact_events self) register_exact self ;;
  self <- for_each (event_patterns self) register_pattern self ;;
  log INFO ("Event broadcast registered for "
            +:+ PyStr.of_nat (length (_unregister_funcs self)) +:+ " event handlers") ;;;
  ret self.

(** The body of the loop of [unregister_handlers]. *)
Definition unregister_one (unregister : Handle) (self : instance) : M instance :=
  try_except_Exception
    (do_unregister unregister)
    (fun e => log WARNING ("Error unregistering handler: " +:+ exc_str e)) ;;;
  ret self.

(** [EventBroadcaster.unregister_handlers()]. *)
Definition unregister_handlers (self : instance) : M instance :=
  self <- for_each (_unregister_funcs self) unregister_one self ;;
  let self := clear_unregister self in
  log INFO "Event broadcast handlers unregistered" ;;;
  ret self.

(** [mount(coordinator, config)].  The returned cleanup closes over the
    broadcaster, so the broadcaster stands for it here; [cleanup] below is
    its body. *)
Definition mount (config : option Config) : M instance :=
  let config := match config with
                | Some c => c
                | None => empty_config
                end in
  broadcaster <- __init__ config ;;
  broadcaster <- register_handlers broadcaster ;;
  log INFO ("Event broadcast module mounted (capability: "
            +:+ capability_name broadcaster +:+ ")") ;;;
  ret broadcaster.

Definition cleanup (broadcaster : instance) : M instance :=
  broadcaster <- unregister_handlers broadcaster ;;
  log INFO "Event broadcast module cleanup complete" ;;;
  ret broadcaster.

End Module_.

(* ===================================================================== *)
(** ** Reading a trace of host calls *)
(* ===================================================================== *)

(** One call of [hooks.register] together with the callable it returned. *)
Record registration (Handle : Type) := mkRegistration {
  reg_event : string;
  reg_handler : hook_handler;
  reg_priority : Z;
  reg_name : string;
  reg_returned : Handle
}.
Arguments mkRegistration {Handle} reg_event reg_handler reg_priority reg_name reg_returned.
Arguments reg_event {Handle} r.
Arguments reg_handler {Handle} r.
Arguments reg_priority {Handle} r.
Arguments reg_name {Handle} r.
Arguments reg_returned {Handle} r.

(** The arguments of a registration. *)
Definition reg_request {Handle : Type} (r : registration Handle)
  : string * hook_handler * Z * string :=
  (reg_event r, reg_handler r, reg_priority r, reg_name r).

(** The arguments [register_handlers] passes for a concrete event name. *)
Definition request_for (event : string) : string * hook_handler * Z * string :=
  (event, Broadcast_handler, 1000%Z, "event-broadcast:" +:+ event).

(** The seven event names a pattern is expanded to. *)
Definition expand_pattern (pattern : string) : list string :=
  map (fun suffix => PyStr.rstrip star pattern +:+ suffix) SUFFIXES.

(** The concrete event names of a broadcaster, exact names first. *)
Definition concrete_events {Handle : Type} (self : EventBroadcaster Handle) : list string :=
  exact_events self ++ flat_map expand_pattern (event_patterns self).

Section Observations.

Context {Host Capability Awaitable Handle Payload : Type}.
Context {coordinator : Coordinator Host Capability Awaitable Handle Payload}.

Abbreviation hcall := (host_call Capability Awaitable Handle Payload).

(** The capability invocations of a trace, with their arguments. *)
Definition capability_calls (tr : list hcall) : list (Capability * string * Payload) :=
  flat_map (fun call => match call with
                        | CallCapability c event data => [(c, event, data)]
                        | _ => []
                        end) tr.

(** The capability names looked up in a trace. *)
Definition lookups (tr : list hcall) : list string :=
  flat_map (fun call => match call with
                        | GetCapability name => [name]
                        | _ => []
                        end) tr.

Definition registration_call (r : registration Handle) : hcall :=
  HooksRegister (reg_event r) (reg_handler r) (reg_priority r) (reg_name r)
    (reg_returned r).

(** The exception a capability ends with when it is called on
    [(event, data)] in host state [h] and, if it is a coroutine function,
    its result awaited: raised by the call, raised by the awaited
    result, or the [TypeError] of awaiting something not awaitable. *)
Definition failure_of (c : Capability) (event : string) (data : Payload) (h : Host)
  : option PyExc :=
  match call_capability c event data h with
  | (Raise e, _) => Some e
  | (Ok v, h1) =>
      if iscoroutinefunction c then
        match v with
        | Plain type_name => Some (await_TypeError type_name)
        | AwaitableValue a =>
            match await_ a h1 with
            | (Raise e, _) => Some e
            | (Ok _, _) => None
            end
        end
      else None
  end.


(** Whether calling [u] in host state [h] raises, and what. *)
Definition unregister_failure (u : Handle) (h : Host) : option PyExc :=
  match call_unregister u h with
  | (Raise e, _) => Some e
  | (Ok _, _) => None
  end.

(** What the handler returns once the capability has been tried: the
    failure is swallowed exactly when [except Exception] catches it. *)
Definition after_delivery (failure : option PyExc) : result HookResult :=
  match failure with
  | None => Ok continue_
  | Some e => if derives_Exception e then Ok continue_ else Raise e
  end.

(** The log records written once the capability has been tried. *)
Definition delivery_log (event : string) (failure : option PyExc) : list log_record :=
  match failure with
  | None => [mkLog DEBUG ("Broadcast event: " +:+ event)]
  | Some e =>
      if derives_Exception e
      then [mkLog WARNING ("Failed to broadcast event " +:+ event +:+ ": " +:+ exc_str e)]
      else []
  end.

(** [self'] and [w'] are [self] and [w] after one [hooks.register] call
    for each event name of [evs], in order, with the arguments
    [register_handlers] passes, every returned callable appended to
    [_unregister_funcs], and no other call into the host. *)
Definition registers (evs : list string)
    (self : EventBroadcaster Handle) (w : World Host Capability Awaitable Handle Payload)
    (self' : EventBroadcaster Handle) (w' : World Host Capability Awaitable Handle Payload)
  : Prop :=
  exists regs : list (registration Handle),
    map reg_request regs = map request_for evs /\
    calls w' = calls w ++ map registration_call regs /\
    self' = with_unregister_funcs self (_unregister_funcs self ++ map reg_returned regs).

End Observations.

(* ===================================================================== *)
(** ** The test double of [tests/conftest.py] *)
(* ===================================================================== *)

Module Mock.

(** Event data of the tests: a dict from strings to strings. *)
Abbreviation payload := (gmap string string).

(** One element of [registered_handlers[event]]. *)
Record entry := mkEntry {
  entry_handler : hook_handler;
  entry_priority : Z;
  entry_name : string
}.

(** The capabilities [tests/test_broadcast.py] registers, and a plain
    [def] that returns or raises. *)
Inductive capability :=
| AsyncMock
| failing_broadcast
| track_broadcast
| sync_function (raises : option PyExc).

(** The coroutine object an [async def] returns when called. *)
Record coroutine := mkCoroutine {
  co_function : capability;
  co_event : string;
  co_data : payload
}.

(** The callable [mock_register] returns (it captures [event]), and a
    callable that raises. *)
Inductive unregister :=
| pop_last (event : string)
| raising (e : PyExc).

Record coordinator := mkCoordinator {
  _registered_handlers : gmap string (list entry);
  _capabilities : gmap string capability;
  mock_calls : list (string * payload);
  broadcast_calls : list (string * payload)
}.

Definition fresh : coordinator := mkCoordinator ∅ ∅ [] [].

(** [coordinator.register_capability(name, value)]. *)
Definition register_capability (name : string) (value : capability) (h : coordinator)
  : coordinator :=
  mkCoordinator (_registered_handlers h) (<[name := value]> (_capabilities h))
    (mock_calls h) (broadcast_calls h).

Definition mock_get_capability (name : string) (h : coordinator) : option capability :=
  _capabilities h !! name.

Definition mock_iscoroutinefunction (c : capability) : bool :=
  match c with
  | sync_function _ => false
  | _ => true
  end.

Definition mock_call (c : capability) (event : string) (data : payload) (h : coordinator)
  : result (py_value coroutine) * coordinator :=
  match c with
  | AsyncMock =>
      (Ok (AwaitableValue (mkCoroutine c event data)),
       mkCoordinator (_registered_handlers h) (_capabilities h)
         (mock_calls h ++ [(event, data)]) (broadcast_calls h))
  | failing_broadcast | track_broadcast =>
      (Ok (AwaitableValue (mkCoroutine c event data)), h)
  | sync_function None => (Ok (Plain "NoneType"), h)
  | sync_function (Some e) => (Raise e, h)
  end.

Definition mock_await (co : coroutine) (h : coordinator) : result unit * coordinator :=
  match co_function co with
  | failing_broadcast => (Raise (mkExc "Exception" true "Broadcast failed!"), h)
  | track_broadcast =>
      (Ok tt,
       mkCoordinator (_registered_handlers h) (_capabilities h) (mock_calls h)
         (broadcast_calls h ++ [(co_event co, co_data co)]))
  | _ => (Ok tt, h)
  end.

(** [mock_register(event, handler, priority, name)]. *)
Definition mock_register (event : string) (handler : hook_handler) (priority : Z)
    (name : string) (h : coordinator) : unregister * coordinator :=
  let old := match _registered_handlers h !! event with
             | Some l => l
             | None => []
             end in
  (pop_last event,
   mkCoordinator (<[event := old ++ [mkEntry handler priority name]]> (_registered_handlers h))
     (_capabilities h) (mock_calls h) (broadcast_calls h)).

(** Calling the returned lambda:
    [registered_handlers[event].pop() if registered_handlers[event] else None]. *)
Definition mock_unregister (u : unregister) (h : coordinator) : result unit * coordinator :=
  match u with
  | pop_last event =>
      match _registered_handlers h !! event with
      | None => (Raise (mkExc "KeyError" true ("'" +:+ event +:+ "'")), h)
      | Some [] => (Ok tt, h)
      | Some l =>
          (Ok tt,
           mkCoordinator (<[event := removelast l]> (_registered_handlers h))
             (_capabilities h) (mock_calls h) (broadcast_calls h))
      end
  | raising e => (Raise e, h)
  end.

#[export] Instance mock_coordinator
  : Coordinator coordinator capability coroutine unregister payload := {
  get_capability := mock_get_capability;
  iscoroutinefunction := mock_iscoroutinefunction;
  call_capability := mock_call;
  await_ := mock_await;
  hooks_register := mock_register;
  call_unregister := mock_unregister
}.

Abbreviation world := (World coordinator capability coroutine unregister payload).
Abbreviation instance := (EventBroadcaster unregister).

Definition start (h : coordinator) : world := mkWorld h [] [].

End Mock.

(* ===================================================================== *)
(** ** Scenarios of [tests/test_broadcast.py] and a few more *)
(* ===================================================================== *)

Module Scenario.
Import Mock.

(** [{"events": ["test:event"]}] and the payload [{"key": "value"}]. *)
Definition test_config : Config := mkConfig (Some ["test:event"]) None.
Definition test_broadcaster : Mock.instance := new_broadcaster test_config.
Definition test_data : payload := {[ "key" := "value" ]}.

(** The coordinator with [mock_broadcast], with [failing_broadcast], and
    with nothing registered as "broadcast". *)
Definition with_mock_broadcast : Mock.world :=
  start (register_capability "broadcast" AsyncMock fresh).
Definition without_broadcast : Mock.world := start fresh.

(** A capability that ends with [KeyboardInterrupt]. *)
Definition KeyboardInterrupt : PyExc := mkExc "KeyboardInterrupt" false "".
Definition with_interrupted_broadcast : Mock.world :=
  start (register_capability "broadcast" (sync_function (Some KeyboardInterrupt)) fresh).

(** [{"events": ["content_block:*", "tool:*"]}]. *)
Definition wildcard_config : Config := mkConfig (Some ["content_block:*"; "tool:*"]) None.

(** One exact name next to one pattern. *)
Definition mixed_config : Config := mkConfig (Some ["tool:pre"; "content_block:*"]) None.

(** A name with an asterisk that is not at its end. *)
Definition inner_star_config : Config := mkConfig (Some ["tool:*:done"]) None.

(** Only a pattern. *)
Definition tool_wildcard_config : Config := mkConfig (Some ["tool:*"]) None.


(** A broadcaster holding three callables, the second of which raises. *)
Definition holding_three : Mock.instance :=
  with_unregister_funcs (new_broadcaster (mkConfig (Some ["tool:pre"; "tool:post"]) None))
    [pop_last "tool:pre"; raising (mkExc "RuntimeError" true "boom"); pop_last "tool:post"].

(** The same names as [mixed_config], in another order and one of them
    twice. *)
Definition shuffled_config : Config :=
  mkConfig (Some ["content_block:*"; "tool:pre"; "tool:pre"]) None.

(** A plain [def] that returns [None], registered as "broadcast". *)
Definition with_plain_broadcast : Mock.world :=
  start (register_capability "broadcast" (sync_function None) fresh).

(** A broadcaster holding three callables, the second of which ends with
    [KeyboardInterrupt]. *)
Definition holding_interrupted : Mock.instance :=
  with_unregister_funcs (new_broadcaster (mkConfig (Some ["tool:pre"; "tool:post"]) None))
    [pop_last "tool:pre"; raising KeyboardInterrupt; pop_last "tool:post"].

(** [test_full_event_flow]: the configuration, the coordinator with
    [track_broadcast] and the two dispatched events. *)
Definition flow_config : Config := mkConfig (Some ["content_block:delta"; "tool:pre"]) None.
Definition with_track_broadcast : Mock.world :=
  start (register_capability "broadcast" track_broadcast fresh).
Definition flow_events : list (string * payload) :=
  [("content_block:delta", {[ "content" := "Hello" ]});
   ("tool:pre", {[ "tool_name" := "bash" ]})].

End Scenario.

(* ===================================================================== *)
(** ** A coordinator whose transport is cancelled *)
(* ===================================================================== *)

(** The smallest coordinator with an asynchronous capability whose awaited
    result is cancelled: "broadcast" is an [async def] and awaiting the
    coroutine it returns raises [asyncio.CancelledError], which derives
    from [BaseException] only.  Host state, handles and payloads carry
    nothing. *)
Module Cancelled.

Definition CancelledError : PyExc := mkExc "CancelledError" false "".

Inductive capability := cancelled_send.
Inductive coroutine := cancelled_send_coroutine.

#[global] Instance cancelled_coordinator
  : Coordinator unit capability coroutine unit unit := {
  get_capability := fun name _ =>
    if String.eqb name "broadcast" then Some cancelled_send else None;
  iscoroutinefunction := fun _ => true;
  call_capability := fun _ _ _ h => (Ok (AwaitableValue cancelled_send_coroutine), h);
  await_ := fun _ h => (Raise CancelledError, h);
  hooks_register := fun _ _ _ _ h => (tt, h);
  call_unregister := fun _ h => (Ok tt, h)
}.

Definition start : World unit capability coroutine unit unit := mkWorld tt [] [].

(** [{"events": ["test:event"]}] on this coordinator. *)
Definition broadcaster : EventBroadcaster unit :=
  new_broadcaster (mkConfig (Some ["test:event"]) None).

End Cancelled.

(* ===================================================================== *)
(** ** What the host goes through *)
(* ===================================================================== *)

Section Driving.

Context {Host Capability Awaitable Handle Payload : Type}.
Context {coordinator : Coordinator Host Capability Awaitable Handle Payload}.

(** [hooks.register] called for the names of [evs] one after another, with
    the arguments [register_handlers] passes, each call on the host state
    the previous one left: the callables returned and the final state. *)
Fixpoint register_all (evs : list string) (h : Host) : list Handle * Host :=
  match evs with
  | [] => ([], h)
  | event :: rest =>
      let '(u, h1) := hooks_register event Broadcast_handler 1000
                        ("event-broadcast:" +:+ event) h in
      let '(us, h2) := register_all rest h1 in
      (u :: us, h2)
  end.

(** The callables of [funcs] called one after another, a failure not
    stopping the next call: the failures, in order, and the final state. *)
Fixpoint release_all (funcs : list Handle) (h : Host) : list PyExc * Host :=
  match funcs with
  | [] => ([], h)
  | u :: rest =>
      match call_unregister u h with
      | (Ok _, h1) => release_all rest h1
      | (Raise e, h1) => let '(es, h2) := release_all rest h1 in (e :: es, h2)
      end
  end.

(** [self'] and [w'] are [self] and [w] after [register_all evs]: the
    host is the one it leaves and the callables it returns are appended to
    [_unregister_funcs]. *)
Definition drives (evs : list string)
    (self : EventBroadcaster Handle) (w : World Host Capability Awaitable Handle Payload)
    (self' : EventBroadcaster Handle) (w' : World Host Capability Awaitable Handle Payload)
  : Prop :=
  host w' = snd (register_all evs (host w)) /\
  self' = with_unregister_funcs self
            (_unregister_funcs self ++ fst (register_all evs (host w))).

(** The warning [unregister_handlers] logs for a failed release. *)
Definition release_warning (e : PyExc) : log_record :=
  mkLog WARNING ("Error unregistering handler: " +:+ exc_str e).

(** The handler awaited for one event after another, as the tests do; an
    exception that leaves the handler ends the sequence. *)
Definition dispatch_all (self : EventBroadcaster Handle) (evs : list (string * Payload))
  : M unit :=
  for_each evs
    (fun ev _ => bind (_broadcast_handler self (fst ev) (snd ev)) (fun _ => ret tt)) tt.

End Driving.

(** The list under [registered_handlers[event]], empty when the key is
    missing. *)
Definition active_handlers (h : Mock.coordinator) (event : string) : list Mock.entry :=
  match Mock._registered_handlers h !! event with
  | Some l => l
  | None => []
  end.

(** The entry [mock_register] stores when [register_handlers] registers
    [event]. *)
Definition entry_for (event : string) : Mock.entry :=
  Mock.mkEntry Broadcast_handler 1000 ("event-broadcast:" +:+ event).

(** [l.pop()] [k] times, an empty list staying empty. *)
Fixpoint pop_times {A : Type} (k : nat) (l : list A) : list A :=
  match k with
  | O => l
  | S k' => pop_times k' (removelast l)
  end.

(** How many times [event] occurs in [evs]. *)
Definition occurrences (event : string) (evs : list string) : nat :=
  length (List.filter (String.eqb event) evs).

(* ===================================================================== *)
(** ** Facts about the string operations *)
(* ===================================================================== *)

Module PyStrFacts.
Import PyStr.

Lemma startswith_iff (s p : string) :
  startswith s p = true <-> exists t, s = p +:+ t.
Proof.
  unfold startswith. revert s.
  induction p as [|a p IH]; intros s; simpl.
  - split; [intros _; exists s; reflexivity | intros _; destruct s; reflexivity].
  - destruct s as [|b s]; simpl.
    + split; [discriminate | intros [t Ht]; discriminate].
    + destruct (Ascii.ascii_dec a b) as [->|Hab].
      * rewrite IH. split; intros [t Ht]; exists t.
        -- now rewrite Ht.
        -- now injection Ht.
      * split; [discriminate | intros [t Ht]; injection Ht; congruence].
Qed.


Lemma in_list_iff (x : string) (l : list string) :
  in_list x l = true <-> In x l.
Proof.
  unfold in_list. rewrite existsb_exists. split.
  - intros [y [Hy Heq]]. apply String.eqb_eq in Heq. now subst.
  - intros Hx. exists x. split; [assumption | apply String.eqb_refl].
Qed.

Lemma rstrip_all_char (c : ascii) (s : string) :
  all_char c s = true -> rstrip c s = "".
Proof.
  induction s as [|a s IH]; simpl; [reflexivity|].
  intros H. apply andb_prop in H as [Ha Hs].
  rewrite (IH Hs), Ha. reflexivity.
Qed.

Lemma append_nil (s : string) : "" +:+ s = s.
Proof. reflexivity. Qed.

Lemma append_cons (a : ascii) (s t : string) : String a s +:+ t = String a (s +:+ t).
Proof. reflexivity. Qed.

(** [rstrip] removes a run of [c] from the end ... *)
Lemma rstrip_decompose (c : ascii) (s : string) :
  exists tail, s = rstrip c s +:+ tail /\ all_char c tail = true.
Proof.
  induction s as [|a s [tail [Hs Htail]]]; simpl.
  - exists "". split; reflexivity.
  - destruct (rstrip c s) as [|b r] eqn:Hr.
    + rewrite append_nil in Hs. subst tail.
      destruct (Ascii.eqb a c) eqn:Hac.
      * exists (String a s). split; [reflexivity|].
        simpl. now rewrite Hac.
      * exists s. split; [reflexivity | assumption].
    + exists tail. split; [|assumption].
      rewrite append_cons. now rewrite <- Hs.
Qed.

(** ... and the longest such run: what is left is a prefix of every
    other way of cutting a run of [c] off the end. *)
Lemma rstrip_longest (c : ascii) (s t u : string) :
  s = t +:+ u -> all_char c u = true -> exists v, t = rstrip c s +:+ v.
Proof.
  revert t. induction s as [|a s IH]; intros t Hs Hu; simpl.
  - exists t. reflexivity.
  - destruct t as [|b t].
    + rewrite append_nil in Hs. subst u.
      pose proof (rstrip_all_char c (String a s) Hu) as Hall.
      simpl in Hall. rewrite Hall. exists "". reflexivity.
    + rewrite append_cons in Hs. injection Hs as -> Hs.
      destruct (IH t Hs Hu) as [v Hv].
      destruct (rstrip c s) as [|b' r] eqn:Hr.
      * destruct (Ascii.eqb b c).
        -- exists (String b t). reflexivity.
        -- exists t. reflexivity.
      * exists v. rewrite append_cons. now rewrite <- Hv.
Qed.

(** When every [c] of [s] is at its end, stripping and cutting at the
    first [c] agree. *)
Lemma before_first_rstrip (c : ascii) (s : string) :
  contains c (rstrip c s) = false -> before_first c s = rstrip c s.
Proof.
  induction s as [|a s IH]; simpl; [reflexivity|].
  destruct (rstrip c s) as [|b r] eqn:Hr.
  - destruct (Ascii.eqb a c) eqn:Hac; [reflexivity|].
    intros _. rewrite IH; reflexivity.
  - simpl. destruct (Ascii.eqb a c) eqn:Hac; [discriminate|].
    intros H. simpl in IH. rewrite (IH H). reflexivity.
Qed.

End PyStrFacts.

(* ===================================================================== *)
(** ** The pattern predicate *)
(* ===================================================================== *)

Section Matching.

Context {Handle : Type}.
Implicit Types (self : EventBroadcaster Handle) (config : Config).

Lemma matches_some_pattern_iff (patterns : list string) (event : string) :
  matches_some_pattern patterns event = true <->
  exists pattern, In pattern patterns /\
                  PyStr.startswith event (PyStr.rstrip star pattern) = true.
Proof.
  induction patterns as [|p ps IH]; simpl.
  - split; [discriminate | intros [q [[] _]]].
  - destruct (PyStr.startswith event (PyStr.rstrip star p)) eqn:Hp.
    + split; [intros _; exists p; auto | reflexivity].
    + rewrite IH. split.
      * intros [q [Hq Hs]]. exists q. auto.
      * intros [q [[->|Hq] Hs]]; [congruence | exists q; auto].
Qed.

Lemma matches_pattern_iff self (event : string) :
  _matches_pattern self event = true <->
  In event (exact_events self) \/
  exists pattern, In pattern (event_patterns self) /\
                  PyStr.startswith event (PyStr.rstrip star pattern) = true.
Proof.
  unfold _matches_pattern.
  destruct (PyStr.in_list event (exact_events self)) eqn:Hin.
  - apply PyStrFacts.in_list_iff in Hin. split; auto.
  - rewrite matches_some_pattern_iff. split; [auto|].
    intros [Hex|Hpat]; [|assumption].
    apply PyStrFacts.in_list_iff in Hex. congruence.
Qed.

Lemma matches_pattern_false_iff self (event : string) :
  _matches_pattern self event = false <->
  ~ In event (exact_events self) /\
  forall pattern, In pattern (event_patterns self) ->
                  PyStr.startswith event (PyStr.rstrip star pattern) = false.
Proof.
  rewrite <- not_true_iff_false, matches_pattern_iff. split.
  - intros H. split; [tauto|].
    intros p Hp. apply not_true_is_false. intros Hs. apply H. right. eauto.
  - intros [Hex Hpat] [Hin|[p [Hp Hs]]]; [tauto|].
    rewrite (Hpat p Hp) in Hs. discriminate.
Qed.

(** The partition made at construction. *)
Lemma event_patterns_new config (e : string) :
  In e (event_patterns (new_broadcaster (Handle:=Handle) config)) <->
  In e (dict_get (cfg_events config) DEFAULT_EVENTS) /\ PyStr.contains star e = true.
Proof. simpl. apply filter_In. Qed.

Lemma exact_events_new config (e : string) :
  In e (exact_events (new_broadcaster (Handle:=Handle) config)) <->
  In e (dict_get (cfg_events config) DEFAULT_EVENTS) /\ PyStr.contains star e = false.
Proof. simpl. rewrite filter_In, negb_true_iff. reflexivity. Qed.


(** C4, as amended.  For a configured name [p] that contains an
    asterisk, the prefix is [p] with its trailing asterisks removed:
    [_matches_pattern x] is true for every [x] that starts with it, and
    false for every [x] that does not, when [x] is no configured exact
    name and starts with the prefix of no other pattern.  When all the
    asterisks of [p] are at its end this prefix is the text before the
    first asterisk. *)
Theorem wildcard_pattern_matches_prefix config (p x : string) :
  In p (dict_get (cfg_events config) DEFAULT_EVENTS) ->
  PyStr.contains star p = true ->
  let self := new_broadcaster (Handle:=Handle) config in
  (PyStr.startswith x (PyStr.rstrip star p) = true -> _matches_pattern self x = true) /\
  (PyStr.startswith x (PyStr.rstrip star p) = false ->
   ~ In x (exact_events self) ->
   (forall q, In q (event_patterns self) ->
              q = p \/ PyStr.startswith x (PyStr.rstrip star q) = false) ->
   _matches_pattern self x = false) /\
  (PyStr.contains star (PyStr.rstrip star p) = false ->
   PyStr.rstrip star p = PyStr.before_first star p).
Proof.
  intros Hin Hstar self. split; [|split].
  - intros Hs. apply matches_pattern_iff. right. exists p. split; [|assumption].
    apply event_patterns_new. auto.
  - intros Hs Hex Hothers. apply matches_pattern_false_iff. split; [assumption|].
    intros q Hq. destruct (Hothers q Hq) as [->|Hq']; assumption.
  - intros H. symmetry. now apply PyStrFacts.before_first_rstrip.
Qed.

(** C5, as amended.  For every configuration and every event name [e]
    that starts with the prefix of no configured wildcard pattern,
    [_matches_pattern e] is true if and only if [e] is one of the
    configured names that contain no asterisk. *)
Theorem exact_names_match_iff_member config (e : string) :
  let self := new_broadcaster (Handle:=Handle) config in
  (forall p, In p (event_patterns self) ->
             PyStr.startswith e (PyStr.rstrip star p) = false) ->
  (_matches_pattern self e = true <->
   In e (dict_get (cfg_events config) DEFAULT_EVENTS) /\ PyStr.contains star e = false).
Proof.
  intros self Hnone. rewrite <- exact_events_new, matches_pattern_iff.
  split; [|auto].
  intros [H|[p [Hp Hs]]]; [assumption|].
  rewrite (Hnone p Hp) in Hs. discriminate.
Qed.

(** The "if" half needs no side condition. *)
Lemma exact_name_matches self (e : string) :
  In e (exact_events self) -> _matches_pattern self e = true.
Proof. intros H. apply matches_pattern_iff. auto. Qed.

End Matching.

(* ===================================================================== *)
(** ** The hook handler *)
(* ===================================================================== *)

Section Handler.

Context {Host Capability Awaitable Handle Payload : Type}.
Context {coordinator : Coordinator Host Capability Awaitable Handle Payload}.

Abbreviation world := (World Host Capability Awaitable Handle Payload).
Implicit Types (self : EventBroadcaster Handle) (w : world) (c : Capability)
  (event : string) (data : Payload).

Lemma handler_unmatched self event data w :
  _matches_pattern self event = false ->
  _broadcast_handler self event data w = (Ok continue_, w).
Proof. intros H. unfold _broadcast_handler. rewrite H. reflexivity. Qed.

Lemma handler_absent self event data w :
  _matches_pattern self event = true ->
  get_capability (capability_name self) (host w) = None ->
  _broadcast_handler self event data w =
  (Ok continue_,
   mkWorld (host w) (calls w ++ [GetCapability (capability_name self)])
     (logs w ++ [mkLog DEBUG ("No '" +:+ capability_name self
                              +:+ "' capability registered, skipping broadcast for "
                              +:+ event)])).
Proof.
  intros Hm Hc. unfold _broadcast_handler, bind, do_get_capability.
  rewrite Hm. cbv beta iota. cbn [negb]. rewrite Hc. reflexivity.
Qed.

Local Ltac handler_case :=
  repeat split; cbn; rewrite ?app_nil_r; reflexivity.

Lemma handler_present self event data w c :
  _matches_pattern self event = true ->
  get_capability (capability_name self) (host w) = Some c ->
  exists w' delta,
    _broadcast_handler self event data w =
      (after_delivery (failure_of c event data (host w)), w') /\
    calls w' = calls w ++ delta /\
    lookups delta = [capability_name self] /\
    capability_calls delta = [(c, event, data)] /\
    logs w' = logs w ++ delivery_log event (failure_of c event data (host w)).
Proof.
  intros Hm Hc.
  unfold _broadcast_handler, bind, try_except_Exception, do_get_capability,
    do_call, do_await, raise, ret, log, failure_of, after_delivery, delivery_log.
  rewrite Hm. cbv beta iota. cbn [negb]. rewrite Hc.
  destruct (iscoroutinefunction c); cbn;
    destruct (call_capability c event data (host w)) as [[v|e] h1]; cbn.
  - destruct v as [|a]; cbn.
    + eexists _, [_; _]. rewrite <- app_assoc. handler_case.
    + destruct (await_ a h1) as [[[]|e] h2]; cbn.
      * eexists _, [_; _; _]. rewrite <- !app_assoc. handler_case.
      * destruct (derives_Exception e); cbn;
          eexists _, [_; _; _]; rewrite <- !app_assoc; handler_case.
  - destruct (derives_Exception e); cbn;
      eexists _, [_; _]; rewrite <- app_assoc; handler_case.
  - eexists _, [_; _]. rewrite <- app_assoc. handler_case.
  - destruct (derives_Exception e); cbn;
      eexists _, [_; _]; rewrite <- app_assoc; handler_case.
Qed.




(** An exception that is no instance of [Exception] is not caught: the
    handler ends with it. *)
Lemma handler_passes_non_Exception self event data w c e :
  _matches_pattern self event = true ->
  get_capability (capability_name self) (host w) = Some c ->
  failure_of c event data (host w) = Some e ->
  derives_Exception e = false ->
  exists w', _broadcast_handler self event data w = (Raise e, w').
Proof.
  intros Hm Hc Hfail He.
  destruct (handler_present self event data w c Hm Hc)
    as (w' & delta & Hrun & _).
  exists w'. rewrite Hrun, Hfail. unfold after_delivery. now rewrite He.
Qed.

(** C3.  For every event name and payload, when no capability is
    registered under the configured name, [_broadcast_handler event data]
    returns "continue", leaves the host as it was and invokes no
    delegate: its only call into the host is the lookup itself (none at
    all for an event that does not match), and it logs at debug level
    only. *)
Theorem handler_without_capability_is_silent self event data w :
  get_capability (capability_name self) (host w) = None ->
  exists w' delta new_logs,
    _broadcast_handler self event data w = (Ok continue_, w') /\
    host w' = host w /\
    calls w' = calls w ++ delta /\
    (delta = [] \/ delta = [GetCapability (capability_name self)]) /\
    capability_calls delta = [] /\
    logs w' = logs w ++ new_logs /\
    forallb is_debug new_logs = true.
Proof.
  intros Hc. destruct (_matches_pattern self event) eqn:Hm.
  - rewrite (handler_absent self event data w Hm Hc).
    eexists _, [_], [_]. repeat split; auto.
  - rewrite (handler_unmatched self event data w Hm).
    exists w, [], []. rewrite !app_nil_r. repeat split; auto.
Qed.


End Handler.

(* ===================================================================== *)
(** ** Registration *)
(* ===================================================================== *)

Section Registration.

Context {Host Capability Awaitable Handle Payload : Type}.
Context {coordinator : Coordinator Host Capability Awaitable Handle Payload}.

Abbreviation world := (World Host Capability Awaitable Handle Payload).
Implicit Types (self : EventBroadcaster Handle) (w : world).

Lemma with_unregister_funcs_same self :
  with_unregister_funcs self (_unregister_funcs self) = self.
Proof. destruct self; reflexivity. Qed.

Lemma registers_nil self w w' :
  calls w' = calls w -> registers [] self w self w'.
Proof.
  intros Hc. exists []. simpl. rewrite !app_nil_r, with_unregister_funcs_same. auto.
Qed.

Lemma registers_app evs1 evs2 self w self1 w1 self2 w2 :
  registers evs1 self w self1 w1 ->
  registers evs2 self1 w1 self2 w2 ->
  registers (evs1 ++ evs2) self w self2 w2.
Proof.
  intros (regs1 & Hreq1 & Hcalls1 & ->) (regs2 & Hreq2 & Hcalls2 & ->).
  exists (regs1 ++ regs2). rewrite !map_app, Hreq1, Hreq2, Hcalls2, Hcalls1.
  simpl. rewrite !app_assoc. auto.
Qed.

(** Logging does not disturb what has been registered. *)
Lemma registers_same_calls evs self w self' w' w'' :
  registers evs self w self' w' -> calls w'' = calls w' ->
  registers evs self w self' w''.
Proof. intros (regs & Hreq & Hcalls & ->) Hc. exists regs. rewrite Hc. auto. Qed.

(** One call of [hooks.register] with the module's arguments. *)
Lemma do_register_registers (event : string) self w :
  exists u w',
    do_register event Broadcast_handler 1000 ("event-broadcast:" +:+ event) w = (Ok u, w') /\
    logs w' = logs w /\
    registers [event] self w (append_unregister self u) w'.
Proof.
  unfold do_register.
  destruct (hooks_register event Broadcast_handler 1000
              ("event-broadcast:" +:+ event) (host w)) as [u h] eqn:Hreg.
  eexists u, _. split; [reflexivity|]. split; [reflexivity|].
  exists [mkRegistration event Broadcast_handler 1000 ("event-broadcast:" +:+ event) u].
  repeat split.
Qed.

(** A loop whose body registers [f x] registers [flat_map f xs]. *)
Lemma for_each_registers {A : Type} (f : A -> list string)
    (body : A -> EventBroadcaster Handle -> M (EventBroadcaster Handle)) :
  (forall x self w, exists self' w',
      body x self w = (Ok self', w') /\ registers (f x) self w self' w') ->
  forall xs self w, exists self' w',
      for_each xs body self w = (Ok self', w') /\
      registers (flat_map f xs) self w self' w'.
Proof.
  intros Hbody xs. induction xs as [|x xs IH]; intros self w; simpl.
  - exists self, w. split; [reflexivity | now apply registers_nil].
  - destruct (Hbody x self w) as (self1 & w1 & Hrun1 & Hreg1).
    destruct (IH self1 w1) as (self2 & w2 & Hrun2 & Hreg2).
    exists self2, w2. unfold bind. rewrite Hrun1. split; [assumption|].
    eapply registers_app; eassumption.
Qed.

Lemma register_exact_registers (event : string) self w :
  exists self' w',
    register_exact event self w = (Ok self', w') /\
    registers [event] self w self' w'.
Proof.
  destruct (do_register_registers event self w) as (u & w1 & Hrun & _ & Hreg).
  unfold register_exact, bind. rewrite Hrun. cbn.
  eexists _, _. split; [reflexivity|].
  eapply registers_same_calls; [eassumption | reflexivity].
Qed.

Lemma register_suffix_registers (prefix suffix : string) self w :
  exists self' w',
    register_suffix prefix suffix self w = (Ok self', w') /\
    registers [prefix +:+ suffix] self w self' w'.
Proof.
  destruct (do_register_registers (prefix +:+ suffix) self w)
    as (u & w1 & Hrun & _ & Hreg).
  unfold register_suffix, bind. rewrite Hrun. cbn.
  eexists _, _. split; [reflexivity | assumption].
Qed.

Lemma flat_map_singleton {A B : Type} (g : A -> B) (xs : list A) :
  flat_map (fun x => [g x]) xs = map g xs.
Proof. induction xs as [|x xs IH]; simpl; congruence. Qed.

Lemma register_pattern_registers (pattern : string) self w :
  exists self' w',
    register_pattern pattern self w = (Ok self', w') /\
    registers (expand_pattern pattern) self w self' w'.
Proof.
  destruct (for_each_registers
              (fun suffix => [PyStr.rstrip star pattern +:+ suffix])
              (register_suffix (PyStr.rstrip star pattern))
              (register_suffix_registers (PyStr.rstrip star pattern))
              SUFFIXES self w) as (self1 & w1 & Hrun & Hreg).
  rewrite flat_map_singleton in Hreg.
  unfold register_pattern, bind. rewrite Hrun. cbn.
  eexists _, _. split; [reflexivity|].
  eapply registers_same_calls; [exact Hreg | reflexivity].
Qed.

Lemma register_handlers_registers self w :
  exists self' w',
    register_handlers self w = (Ok self', w') /\
    registers (concrete_events self) self w self' w'.
Proof.
  destruct (for_each_registers (fun event => [event]) register_exact
              register_exact_registers (exact_events self) self w)
    as (self1 & w1 & Hrun1 & Hreg1).
  rewrite (flat_map_singleton (fun e => e)), map_id in Hreg1.
  destruct (for_each_registers expand_pattern register_pattern
              register_pattern_registers (event_patterns self1) self1 w1)
    as (self2 & w2 & Hrun2 & Hreg2).
  assert (Hpat : event_patterns self1 = event_patterns self)
    by (destruct Hreg1 as (regs & _ & _ & ->); reflexivity).
  unfold register_handlers, bind. rewrite Hrun1, Hrun2. cbn.
  eexists _, _. split; [reflexivity|].
  eapply registers_same_calls; [|reflexivity].
  unfold concrete_events. rewrite <- Hpat.
  eapply registers_app; eassumption.
Qed.

End Registration.

(* ===================================================================== *)
(** ** Start and stop *)
(* ===================================================================== *)

Section Lifecycle.

Context {Host Capability Awaitable Handle Payload : Type}.
Context {coordinator : Coordinator Host Capability Awaitable Handle Payload}.

Abbreviation world := (World Host Capability Awaitable Handle Payload).
Implicit Types (self : EventBroadcaster Handle) (w : world) (config : Config).


(** C9.  With [events] set to the empty list, construction ends
    normally, [register_handlers] makes no call into the host and
    retains nothing, [_matches_pattern] is false for every event name,
    and the handler does nothing for any event. *)
Theorem empty_event_list_is_noop (name : option string) w :
  let config := mkConfig (Some []) name in
  exists self w1,
    __init__ (Handle:=Handle) config w = (Ok self, w1) /\
    host w1 = host w /\ calls w1 = calls w /\
    (forall event, _matches_pattern self event = false) /\
    (exists self' w2,
        register_handlers self w1 = (Ok self', w2) /\
        host w2 = host w1 /\ calls w2 = calls w1 /\
        _unregister_funcs self' = []) /\
    (forall event (data : Payload) w3,
        _broadcast_handler self event data w3 = (Ok continue_, w3)).
Proof.
  intros config. eexists _, _. split; [reflexivity|].
  repeat split.
  eexists _, _. repeat split.
Qed.


(** The loop of [unregister_handlers], when every failure of a release
    is an instance of [Exception]. *)
Lemma for_each_unregister_one (funcs : list Handle) self w :
  (forall u h e, In u funcs -> unregister_failure u h = Some e ->
                 derives_Exception e = true) ->
  exists w',
    for_each funcs unregister_one self w = (Ok self, w') /\
    calls w' = calls w ++ map CallUnregister funcs.
Proof.
  revert w. induction funcs as [|u funcs IH]; intros w Herr; simpl.
  - exists w. now rewrite app_nil_r.
  - assert (Hstep : exists w1, unregister_one u self w = (Ok self, w1) /\
                               calls w1 = calls w ++ [CallUnregister u]).
    { unfold unregister_one, bind, try_except_Exception, do_unregister.
      pose proof (Herr u (host w)) as Hu. unfold unregister_failure in Hu.
      destruct (call_unregister u (host w)) as [[[]|e] h1].
      - eexists. split; reflexivity.
      - rewrite (Hu e (or_introl eq_refl) eq_refl). cbn.
        eexists. split; reflexivity. }
    destruct Hstep as (w1 & Hrun1 & Hcalls1).
    destruct (IH w1) as (w2 & Hrun2 & Hcalls2).
    { intros u' h e Hin. apply Herr. now right. }
    exists w2. unfold bind. rewrite Hrun1. split; [assumption|].
    rewrite Hcalls2, Hcalls1, <- app_assoc. reflexivity.
Qed.

(** A release that ends with something that is no instance of
    [Exception] ends [unregister_handlers] with it. *)
Lemma unregister_handlers_passes_non_Exception (u : Handle) (rest : list Handle) self w e :
  _unregister_funcs self = u :: rest ->
  unregister_failure u (host w) = Some e ->
  derives_Exception e = false ->
  exists w', unregister_handlers self w = (Raise e, w') /\
             calls w' = calls w ++ [CallUnregister u].
Proof.
  intros Hfuncs Hfail He.
  unfold unregister_handlers, bind. rewrite Hfuncs. simpl.
  unfold bind, unregister_one, bind, try_except_Exception, do_unregister.
  unfold unregister_failure in Hfail.
  destruct (call_unregister u (host w)) as [[[]|e'] h1]; [discriminate|].
  injection Hfail as ->. rewrite He.
  eexists. split; reflexivity.
Qed.

(** What [mount] registered is what its cleanup releases: the callables
    returned by the registrations, each once, in registration order. *)
Lemma cleanup_releases_what_mount_registered config w :
(forall (u : Handle) h e, unregister_failure u h = Some e -> derives_Exception e = true) ->
exists broadcaster w1 (regs : list (registration Handle)) broadcaster' w2,
  mount (Some config) w = (Ok broadcaster, w1) /\
  calls w1 = calls w ++ map registration_call regs /\
  cleanup broadcaster w1 = (Ok broadcaster', w2) /\
  calls w2 = calls w1 ++ map CallUnregister (map reg_returned regs) /\
  _unregister_funcs broadcaster' = [].
Proof.
intros Herr. unfold mount, __init__, bind at 1 2, log at 1. cbn.
set (w0 := mkWorld (host w) (calls w) _).
destruct (register_handlers_registers (new_broadcaster config) w0)
  as (self1 & w1 & Hrun1 & regs & _ & Hcalls1 & ->).
unfold bind. rewrite Hrun1. cbn.
set (self1 := with_unregister_funcs _ _).
set (w1' := mkWorld (host w1) (calls w1) _).
destruct (for_each_unregister_one (_unregister_funcs self1) self1 w1')
  as (w2 & Hrun2 & Hcalls2).
{ intros u h e _. apply Herr. }
eexists self1, w1', regs, _, _. split; [reflexivity|]. split; [exact Hcalls1|].
unfold cleanup, unregister_handlers, bind. rewrite Hrun2. cbn.
split; [reflexivity|]. split; [exact Hcalls2 | reflexivity].
Qed.

End Lifecycle.

(* ===================================================================== *)
(** ** The properties on the test double *)
(* ===================================================================== *)

Import Mock Scenario.





(** [test_no_broadcast_when_no_capability]. *)
Lemma handler_without_capability_is_silent_witness :
  get_capability (capability_name test_broadcaster) (host without_broadcast) = None /\
  exists w' delta new_logs,
    _broadcast_handler test_broadcaster "test:event" test_data without_broadcast
      = (Ok continue_, w') /\
    host w' = host without_broadcast /\
    calls w' = calls without_broadcast ++ delta /\
    (delta = [] \/ delta = [GetCapability (capability_name test_broadcaster)]) /\
    capability_calls delta = [] /\
    logs w' = logs without_broadcast ++ new_logs /\
    forallb is_debug new_logs = true.
Proof.
  split; [reflexivity|].
  apply (handler_without_capability_is_silent test_broadcaster "test:event" test_data
           without_broadcast).
  reflexivity.
Defined.

(** A capability interrupted from the keyboard: the handler does not
    return. *)
Example handler_interrupted :
  fst (_broadcast_handler test_broadcaster "test:event" test_data with_interrupted_broadcast)
  = Raise KeyboardInterrupt.
Proof. reflexivity. Qed.

(** [test_matches_wildcard_pattern]. *)
Lemma wildcard_pattern_matches_prefix_witness :
  In "content_block:*" (dict_get (cfg_events wildcard_config) DEFAULT_EVENTS) /\
  PyStr.contains star "content_block:*" = true /\
  _matches_pattern (new_broadcaster (Handle:=unregister) wildcard_config)
    "content_block:delta" = true /\
  PyStr.rstrip star "content_block:*" = PyStr.before_first star "content_block:*".
Proof.
  assert (Hin : In "content_block:*" (dict_get (cfg_events wildcard_config) DEFAULT_EVENTS))
    by (simpl; auto).
  split; [exact Hin|]. split; [reflexivity|].
  destruct (wildcard_pattern_matches_prefix (Handle:=unregister) wildcard_config
              "content_block:*" "content_block:delta" Hin eq_refl)
    as (Hmatch & _ & Hprefix).
  split; [apply Hmatch | apply Hprefix]; reflexivity.
Defined.

(** C4 as stated fails: "tool:pre" starts with the text before the first
    asterisk of the configured "tool:*:done", and does not match. *)
Lemma inner_star_pattern_rejects_prefix :
  In "tool:*:done" (dict_get (cfg_events inner_star_config) DEFAULT_EVENTS) /\
  PyStr.contains star "tool:*:done" = true /\
  PyStr.before_first star "tool:*:done" = "tool:" /\
  PyStr.startswith "tool:pre" (PyStr.before_first star "tool:*:done") = true /\
  _matches_pattern (new_broadcaster (Handle:=unregister) inner_star_config) "tool:pre"
    = false.
Proof. repeat split. simpl. auto. Qed.

(** [test_matches_exact_event], with a pattern next to the exact name. *)
Lemma exact_names_match_iff_member_witness :
  (forall p, In p (event_patterns (new_broadcaster (Handle:=unregister) mixed_config)) ->
             PyStr.startswith "tool:pre" (PyStr.rstrip star p) = false) /\
  (_matches_pattern (new_broadcaster (Handle:=unregister) mixed_config) "tool:pre" = true <->
   In "tool:pre" (dict_get (cfg_events mixed_config) DEFAULT_EVENTS) /\
   PyStr.contains star "tool:pre" = false).
Proof.
  assert (Hnone : forall p,
             In p (event_patterns (new_broadcaster (Handle:=unregister) mixed_config)) ->
             PyStr.startswith "tool:pre" (PyStr.rstrip star p) = false).
  { intros p [<-|[]]. reflexivity. }
  split; [exact Hnone|].
  apply (exact_names_match_iff_member (Handle:=unregister) mixed_config "tool:pre" Hnone).
Defined.

(** C5 as stated fails: with only "tool:*" configured there is no exact
    name, and "tool:pre" matches. *)
Lemma wildcard_matches_outside_exact_names :
  exact_events (new_broadcaster (Handle:=unregister) tool_wildcard_config) = [] /\
  ~ (In "tool:pre" (dict_get (cfg_events tool_wildcard_config) DEFAULT_EVENTS) /\
     PyStr.contains star "tool:pre" = false) /\
  _matches_pattern (new_broadcaster (Handle:=unregister) tool_wildcard_config) "tool:pre"
    = true.
Proof.
  split; [reflexivity|]. split; [|reflexivity].
  intros [[H|[]] _]. discriminate.
Qed.


(* ===================================================================== *)
(** ** More on construction and the pattern predicate *)
(* ===================================================================== *)

Section Construction.

Context {Handle : Type}.
Implicit Types (self : EventBroadcaster Handle) (config : Config).

Lemma partition_permutation (f : string -> bool) (l : list string) :
  Permutation (List.filter (fun e => negb (f e)) l ++ List.filter f l) l.
Proof.
  induction l as [|x l IH]; simpl; [constructor|].
  destruct (f x); simpl.
  - symmetry. apply Permutation_cons_app. now symmetry.
  - now constructor.
Qed.

(** X1.  Construction splits the configured events in two: every
    configured name is in exactly one of [exact_events] and
    [event_patterns] (as many times as it is configured), the patterns are
    the names that contain an asterisk, and the exact names those that do
    not. *)
Theorem construction_partitions_events config :
  let self := new_broadcaster (Handle:=Handle) config in
  events self = dict_get (cfg_events config) DEFAULT_EVENTS /\
  Permutation (exact_events self ++ event_patterns self) (events self) /\
  length (exact_events self) + length (event_patterns self) = length (events self) /\
  (forall e, In e (event_patterns self) <->
             In e (events self) /\ PyStr.contains star e = true) /\
  (forall e, In e (exact_events self) <->
             In e (events self) /\ PyStr.contains star e = false) /\
  (forall e, In e (exact_events self) -> In e (event_patterns self) -> False).
Proof.
  intros self. split; [reflexivity|].
  split; [apply partition_permutation|].
  split.
  { rewrite <- length_app. apply Permutation_length, partition_permutation. }
  split; [apply event_patterns_new|]. split; [apply exact_events_new|].
  intros e Hex Hpat.
  apply exact_events_new in Hex as [_ Hex].
  apply event_patterns_new in Hpat as [_ Hpat]. congruence.
Qed.

Lemma startswith_append (p s : string) : PyStr.startswith (p +:+ s) p = true.
Proof. apply PyStrFacts.startswith_iff. exists s. reflexivity. Qed.

(** X2.  Every event name [register_handlers] registers the handler for
    passes the handler's own filter: the exact names, and prefix + suffix
    for each pattern and each of the seven suffixes. *)
Theorem registered_events_match self (event : string) :
  In event (concrete_events self) -> _matches_pattern self event = true.
Proof.
  unfold concrete_events. rewrite in_app_iff, in_flat_map.
  intros [Hex|(p & Hp & Hin)].
  - now apply exact_name_matches.
  - apply matches_pattern_iff. right. exists p. split; [assumption|].
    unfold expand_pattern in Hin. apply in_map_iff in Hin as (suffix & <- & _).
    apply startswith_append.
Qed.

Lemma matching_monotone config1 config2 (event : string) :
  incl (dict_get (cfg_events config1) DEFAULT_EVENTS)
       (dict_get (cfg_events config2) DEFAULT_EVENTS) ->
  _matches_pattern (new_broadcaster (Handle:=Handle) config1) event = true ->
  _matches_pattern (new_broadcaster (Handle:=Handle) config2) event = true.
Proof.
  intros Hincl. rewrite !matches_pattern_iff.
  intros [Hex|(p & Hp & Hs)].
  - left. apply exact_events_new in Hex as [Hin Hstar].
    apply exact_events_new. auto.
  - right. exists p. split; [|assumption].
    apply event_patterns_new in Hp as [Hin Hstar].
    apply event_patterns_new. auto.
Qed.

(** X3.  The predicate depends on the configured events as a set: two
    configurations that list the same names, in any order and any number
    of times, match the same event names. *)
Theorem matching_ignores_order_and_repetition config1 config2 (event : string) :
  (forall e, In e (dict_get (cfg_events config1) DEFAULT_EVENTS) <->
             In e (dict_get (cfg_events config2) DEFAULT_EVENTS)) ->
  _matches_pattern (new_broadcaster (Handle:=Handle) config1) event =
  _matches_pattern (new_broadcaster (Handle:=Handle) config2) event.
Proof.
  intros Hsame.
  destruct (_matches_pattern (new_broadcaster config1) event) eqn:H1;
    destruct (_matches_pattern (new_broadcaster config2) event) eqn:H2;
    try reflexivity.
  - rewrite <- H2. symmetry.
    apply (matching_monotone config1 config2); [|assumption].
    intros e. apply Hsame.
  - rewrite <- H1.
    apply (matching_monotone config2 config1); [|assumption].
    intros e. apply Hsame.
Qed.


End Construction.

(* ===================================================================== *)
(** ** More on the hook handler *)
(* ===================================================================== *)

Section Delivery.

Context {Host Capability Awaitable Handle Payload : Type}.
Context {coordinator : Coordinator Host Capability Awaitable Handle Payload}.

Abbreviation world := (World Host Capability Awaitable Handle Payload).
Implicit Types (self : EventBroadcaster Handle) (w : world) (c : Capability)
  (event : string) (data : Payload).

Local Ltac run_handler Hm Hc :=
  unfold _broadcast_handler, bind, try_except_Exception, do_get_capability,
    do_call, do_await, raise, ret, log;
  rewrite Hm; cbv beta iota; cbn [negb]; rewrite Hc.

(** X5.  [except Exception] does not catch what derives from
    [BaseException] only: when the capability ends with such an exception
    (a [KeyboardInterrupt], say), the handler has called it once, logs
    nothing, and ends with that exception instead of returning. *)
Theorem handler_does_not_catch_non_Exception self event data w c e :
  _matches_pattern self event = true ->
  get_capability (capability_name self) (host w) = Some c ->
  failure_of c event data (host w) = Some e ->
  derives_Exception e = false ->
  exists w' delta,
    _broadcast_handler self event data w = (Raise e, w') /\
    calls w' = calls w ++ delta /\
    capability_calls delta = [(c, event, data)] /\
    logs w' = logs w.
Proof.
  intros Hm Hc Hfail He.
  destruct (handler_present self event data w c Hm Hc)
    as (w' & delta & Hrun & Hcalls & _ & Hinv & Hlogs).
  exists w', delta. rewrite Hrun, Hlogs, Hfail.
  unfold after_delivery, delivery_log. rewrite He, app_nil_r. auto.
Qed.

(** X6.  A capability that is not a coroutine function is called and its
    result dropped: whatever the call returns, an awaitable included, is
    never awaited; the handler's calls into the host are the lookup and
    the call, the host is left as the call left it, one debug record is
    written and "continue" returned. *)
Theorem plain_function_result_is_not_awaited self event data w c v h1 :
  _matches_pattern self event = true ->
  get_capability (capability_name self) (host w) = Some c ->
  iscoroutinefunction c = false ->
  call_capability c event data (host w) = (Ok v, h1) ->
  _broadcast_handler self event data w =
  (Ok continue_,
   mkWorld h1
     (calls w ++ [GetCapability (capability_name self); CallCapability c event data])
     (logs w ++ [mkLog DEBUG ("Broadcast event: " +:+ event)])).
Proof.
  intros Hm Hc Hco Hcall. run_handler Hm Hc. rewrite Hco. cbn.
  rewrite Hcall. cbn. rewrite <- app_assoc. reflexivity.
Qed.


(** X8.  Event names that do not match leave no trace: for each of
    them the handler returns "continue" and the world it was called in,
    with no lookup of the capability, no call into the host and no log
    record; so dispatching any sequence of them leaves the world as it
    was. *)
Theorem unmatched_events_leave_no_trace self (evs : list (string * Payload)) w :
  (forall ev, In ev evs -> _matches_pattern self (fst ev) = false) ->
  (forall ev w0, In ev evs ->
                 _broadcast_handler self (fst ev) (snd ev) w0 = (Ok continue_, w0)) /\
  action continue_ = "continue" /\
  dispatch_all self evs w = (Ok tt, w).
Proof.
  intros Hall. split; [|split; [reflexivity|]].
  - intros ev w0 Hin. apply handler_unmatched. now apply Hall.
  - induction evs as [|ev evs IH]; [reflexivity|].
    unfold dispatch_all. simpl. unfold bind at 1 2.
    rewrite (handler_unmatched self (fst ev) (snd ev) w (Hall ev (or_introl eq_refl))).
    cbn. apply IH. intros ev' Hin. apply Hall. now right.
Qed.

End Delivery.

(* ===================================================================== *)
(** ** More on start and stop *)
(* ===================================================================== *)

Section Composition.

Context {Host Capability Awaitable Handle Payload : Type}.
Context {coordinator : Coordinator Host Capability Awaitable Handle Payload}.

Abbreviation world := (World Host Capability Awaitable Handle Payload).
Implicit Types (self : EventBroadcaster Handle) (w : world) (config : Config).

Lemma register_all_app (evs1 evs2 : list string) (h : Host) :
  register_all (evs1 ++ evs2) h =
  (fst (register_all evs1 h) ++ fst (register_all evs2 (snd (register_all evs1 h))),
   snd (register_all evs2 (snd (register_all evs1 h)))).
Proof.
  revert h. induction evs1 as [|e evs1 IH]; intros h; simpl.
  - now destruct (register_all evs2 h).
  - destruct (hooks_register e Broadcast_handler 1000 ("event-broadcast:" +:+ e) h)
      as [u h1].
    rewrite IH. destruct (register_all evs1 h1) as [us1 h2]. reflexivity.
Qed.

Lemma drives_nil self w w' : host w' = host w -> drives [] self w self w'.
Proof.
  intros Hh. split; [exact Hh|]. simpl.
  rewrite app_nil_r. symmetry. apply with_unregister_funcs_same.
Qed.

Lemma drives_app evs1 evs2 self w self1 w1 self2 w2 :
  drives evs1 self w self1 w1 -> drives evs2 self1 w1 self2 w2 ->
  drives (evs1 ++ evs2) self w self2 w2.
Proof.
  intros [Hh1 ->] [Hh2 ->]. unfold drives. rewrite register_all_app. split; simpl.
  - now rewrite Hh2, Hh1.
  - rewrite Hh1, app_assoc. reflexivity.
Qed.

Lemma drives_same_host evs self w self' w' w'' :
  drives evs self w self' w' -> host w'' = host w' -> drives evs self w self' w''.
Proof. intros [Hh ->] Hh'. split; [congruence | reflexivity]. Qed.

Lemma for_each_drives {A : Type} (f : A -> list string)
    (body : A -> EventBroadcaster Handle -> M (EventBroadcaster Handle)) :
  (forall x self w, exists self' w',
      body x self w = (Ok self', w') /\ drives (f x) self w self' w') ->
  forall xs self w, exists self' w',
      for_each xs body self w = (Ok self', w') /\
      drives (flat_map f xs) self w self' w'.
Proof.
  intros Hbody xs. induction xs as [|x xs IH]; intros self w; simpl.
  - exists self, w. split; [reflexivity | now apply drives_nil].
  - destruct (Hbody x self w) as (self1 & w1 & Hrun1 & Hd1).
    destruct (IH self1 w1) as (self2 & w2 & Hrun2 & Hd2).
    exists self2, w2. unfold bind. rewrite Hrun1. split; [assumption|].
    eapply drives_app; eassumption.
Qed.

Lemma do_register_drives (event : string) self w :
  exists u w',
    do_register event Broadcast_handler 1000 ("event-broadcast:" +:+ event) w = (Ok u, w') /\
    drives [event] self w (append_unregister self u) w'.
Proof.
  unfold do_register, drives. simpl.
  destruct (hooks_register event Broadcast_handler 1000
              ("event-broadcast:" +:+ event) (host w)) as [u h].
  eexists u, _. repeat split.
Qed.

Lemma register_exact_drives (event : string) self w :
  exists self' w',
    register_exact event self w = (Ok self', w') /\ drives [event] self w self' w'.
Proof.
  destruct (do_register_drives event self w) as (u & w1 & Hrun & Hd).
  unfold register_exact, bind. rewrite Hrun. cbn.
  eexists _, _. split; [reflexivity|].
  eapply drives_same_host; [eassumption | reflexivity].
Qed.

Lemma register_suffix_drives (prefix suffix : string) self w :
  exists self' w',
    register_suffix prefix suffix self w = (Ok self', w') /\
    drives [prefix +:+ suffix] self w self' w'.
Proof.
  destruct (do_register_drives (prefix +:+ suffix) self w) as (u & w1 & Hrun & Hd).
  unfold register_suffix, bind. rewrite Hrun. cbn.
  eexists _, _. split; [reflexivity | assumption].
Qed.

Lemma register_pattern_drives (pattern : string) self w :
  exists self' w',
    register_pattern pattern self w = (Ok self', w') /\
    drives (expand_pattern pattern) self w self' w'.
Proof.
  destruct (for_each_drives
              (fun suffix => [PyStr.rstrip star pattern +:+ suffix])
              (register_suffix (PyStr.rstrip star pattern))
              (register_suffix_drives (PyStr.rstrip star pattern))
              SUFFIXES self w) as (self1 & w1 & Hrun & Hd).
  rewrite flat_map_singleton in Hd.
  unfold register_pattern, bind. rewrite Hrun. cbn.
  eexists _, _. split; [reflexivity|].
  eapply drives_same_host; [exact Hd | reflexivity].
Qed.

Lemma register_handlers_drives self w :
  exists self' w',
    register_handlers self w = (Ok self', w') /\
    drives (concrete_events self) self w self' w'.
Proof.
  destruct (for_each_drives (fun event => [event]) register_exact
              register_exact_drives (exact_events self) self w)
    as (self1 & w1 & Hrun1 & Hd1).
  rewrite (flat_map_singleton (fun e => e)), map_id in Hd1.
  destruct (for_each_drives expand_pattern register_pattern
              register_pattern_drives (event_patterns self1) self1 w1)
    as (self2 & w2 & Hrun2 & Hd2).
  assert (Hpat : event_patterns self1 = event_patterns self)
    by (destruct Hd1 as [_ ->]; reflexivity).
  unfold register_handlers, bind. rewrite Hrun1, Hrun2. cbn.
  eexists _, _. split; [reflexivity|].
  eapply drives_same_host; [|reflexivity].
  unfold concrete_events. rewrite <- Hpat.
  eapply drives_app; eassumption.
Qed.

(** One turn of the loop of [unregister_handlers]. *)
Lemma unregister_one_run (u : Handle) self w :
  unregister_one u self w =
  match call_unregister u (host w) with
  | (Ok _, h1) => (Ok self, mkWorld h1 (calls w ++ [CallUnregister u]) (logs w))
  | (Raise e, h1) =>
      if derives_Exception e
      then (Ok self, mkWorld h1 (calls w ++ [CallUnregister u])
                       (logs w ++ [release_warning e]))
      else (Raise e, mkWorld h1 (calls w ++ [CallUnregister u]) (logs w))
  end.
Proof.
  unfold unregister_one, bind, try_except_Exception, do_unregister.
  destruct (call_unregister u (host w)) as [[[]|e] h1]; cbn; [reflexivity|].
  destruct (derives_Exception e); reflexivity.
Qed.

(** The loop of [unregister_handlers] when every failure it meets is an
    instance of [Exception]. *)
Lemma for_each_unregister_run (funcs : list Handle) self w :
  (forall e, In e (fst (release_all funcs (host w))) -> derives_Exception e = true) ->
  for_each funcs unregister_one self w =
  (Ok self,
   mkWorld (snd (release_all funcs (host w)))
     (calls w ++ map CallUnregister funcs)
     (logs w ++ map release_warning (fst (release_all funcs (host w))))).
Proof.
  revert w. induction funcs as [|u funcs IH]; intros w Herr; simpl.
  - rewrite !app_nil_r. now destruct w.
  - simpl in Herr. unfold bind at 1. rewrite unregister_one_run.
    destruct (call_unregister u (host w)) as [[[]|e] h1].
    + rewrite IH by exact Herr. cbn. rewrite <- app_assoc. reflexivity.
    + destruct (release_all funcs h1) as [es h2] eqn:Hrest.
      rewrite (Herr e (or_introl eq_refl)).
      rewrite IH; cbn; rewrite Hrest.
      * cbn. rewrite <- !app_assoc. reflexivity.
      * intros e' Hin. apply Herr. now right.
Qed.



Lemma for_each_app {A S : Type} (l1 l2 : list A) (body : A -> S -> M S) (s : S) w :
  for_each (l1 ++ l2) body s w =
  match for_each l1 body s w with
  | (Ok s1, w1) => for_each l2 body s1 w1
  | (Raise e, w1) => (Raise e, w1)
  end.
Proof.
  revert s w. induction l1 as [|x l1 IH]; intros s w; simpl; [reflexivity|].
  unfold bind. destruct (body x s w) as [[s1|e] w1]; [apply IH | reflexivity].
Qed.

(** X10.  A release that ends with an exception that is no instance of
    [Exception] ends [unregister_handlers] with it: the callables after
    it in the list are not called. *)
Theorem unregister_handlers_stops_at_non_Exception self w
    (pre : list Handle) (u : Handle) (rest : list Handle) (e : PyExc) :
  _unregister_funcs self = pre ++ u :: rest ->
  (forall e', In e' (fst (release_all pre (host w))) -> derives_Exception e' = true) ->
  unregister_failure u (snd (release_all pre (host w))) = Some e ->
  derives_Exception e = false ->
  exists w',
    unregister_handlers self w = (Raise e, w') /\
    calls w' = calls w ++ map CallUnregister (pre ++ [u]).
Proof.
  intros Hfuncs Hpre Hfail He.
  unfold unregister_handlers, bind. rewrite Hfuncs, for_each_app.
  rewrite (for_each_unregister_run pre self w Hpre). simpl.
  unfold bind. rewrite unregister_one_run. cbn [host calls logs].
  unfold unregister_failure in Hfail.
  destruct (call_unregister u (snd (release_all pre (host w)))) as [[[]|e'] h1];
    [discriminate|].
  injection Hfail as ->. rewrite He.
  eexists. split; [reflexivity|]. cbn. rewrite map_app, app_assoc. reflexivity.
Qed.


Lemma mount_cleanup_run config w :
  let evs := concrete_events (new_broadcaster (Handle:=Handle) config) in
  let funcs := fst (register_all evs (host w)) in
  let mounted := snd (register_all evs (host w)) in
  (forall e, In e (fst (release_all funcs mounted)) -> derives_Exception e = true) ->
  exists broadcaster w1 (regs : list (registration Handle)) broadcaster' w2,
    mount (Some config) w = (Ok broadcaster, w1) /\
    host w1 = mounted /\
    _unregister_funcs broadcaster = funcs /\
    map reg_request regs = map request_for evs /\
    map reg_returned regs = funcs /\
    calls w1 = calls w ++ map registration_call regs /\
    cleanup broadcaster w1 = (Ok broadcaster', w2) /\
    host w2 = snd (release_all funcs mounted) /\
    calls w2 = calls w1 ++ map CallUnregister funcs /\
    _unregister_funcs broadcaster' = [].
Proof.
  intros evs funcs mounted Herr.
  unfold mount, __init__, bind at 1 2, log at 1. cbn.
  set (w0 := mkWorld (host w) (calls w) _).
  destruct (register_handlers_registers (new_broadcaster config) w0)
    as (self1 & w1 & Hrun1 & regs & Hreq & Hcalls1 & Hself1).
  destruct (register_handlers_drives (new_broadcaster config) w0)
    as (self1' & w1' & Hrun1' & Hhost & Hself1').
  rewrite Hrun1 in Hrun1'. injection Hrun1' as <- <-.
  assert (Hfuncs : map reg_returned regs = funcs).
  { rewrite Hself1 in Hself1'. injection Hself1' as H. exact H. }
  unfold bind. rewrite Hrun1. cbn.
  set (w1' := mkWorld (host w1) (calls w1) _).
  assert (Hheld : _unregister_funcs self1 = funcs) by (now rewrite Hself1).
  assert (Herr' : forall e, In e (fst (release_all (_unregister_funcs self1) (host w1'))) ->
                            derives_Exception e = true).
  { rewrite Hheld. cbn. rewrite Hhost. exact Herr. }
  exists self1, w1', regs. eexists _, _.
  split; [reflexivity|]. split; [exact Hhost|]. split; [exact Hheld|].
  split; [exact Hreq|]. split; [exact Hfuncs|]. split; [exact Hcalls1|].
  unfold cleanup, unregister_handlers, bind.
  rewrite (for_each_unregister_run _ self1 w1' Herr'). cbn.
  rewrite Hheld, Hhost. repeat split.
Qed.


Lemma release_all_cons_host (u : Handle) (funcs : list Handle) (h : Host) :
  snd (release_all (u :: funcs) h) = snd (release_all funcs (snd (call_unregister u h))).
Proof.
  simpl. destruct (call_unregister u h) as [[[]|e] h1]; [reflexivity|].
  simpl. now destruct (release_all funcs h1).
Qed.

End Composition.

(* ===================================================================== *)
(** ** The module on the test double *)
(* ===================================================================== *)

Section OnTheMock.

Implicit Types (h : Mock.coordinator) (w : Mock.world) (self : Mock.instance).

Lemma active_after_register (e e' name : string) h :
  active_handlers (snd (mock_register e Broadcast_handler 1000 name h)) e' =
  if String.eqb e e'
  then active_handlers h e' ++ [mkEntry Broadcast_handler 1000 name]
  else active_handlers h e'.
Proof.
  unfold active_handlers, mock_register. simpl. rewrite lookup_insert.
  destruct (String.eqb_spec e e') as [->|Hne].
  - rewrite decide_True by reflexivity. reflexivity.
  - rewrite decide_False by exact Hne. reflexivity.
Qed.

Lemma active_after_unregister (e e' : string) h :
  active_handlers (snd (mock_unregister (pop_last e) h)) e' =
  if String.eqb e e' then removelast (active_handlers h e') else active_handlers h e'.
Proof.
  unfold active_handlers, mock_unregister.
  destruct (String.eqb_spec e e') as [->|Hne].
  - destruct (_registered_handlers h !! e') as [[|x l]|] eqn:He; cbn [snd].
    + now rewrite He.
    + cbn [_registered_handlers]. now rewrite lookup_insert_eq.
    + now rewrite He.
  - destruct (_registered_handlers h !! e) as [[|x l]|] eqn:He; cbn [snd];
      try reflexivity.
    cbn [_registered_handlers]. now rewrite lookup_insert_ne.
Qed.

Lemma unregister_keeps_capabilities (e : string) h :
  _capabilities (snd (mock_unregister (pop_last e) h)) = _capabilities h.
Proof.
  unfold mock_unregister.
  destruct (_registered_handlers h !! e) as [[|x l]|]; reflexivity.
Qed.

Lemma occurrences_cons (e' e : string) (evs : list string) :
  occurrences e' (e :: evs) =
  if String.eqb e e' then S (occurrences e' evs) else occurrences e' evs.
Proof.
  unfold occurrences. simpl. rewrite (String.eqb_sym e' e).
  now destruct (String.eqb e e').
Qed.

(** Registering [evs] on the test double. *)
Lemma mock_register_all (evs : list string) h :
  fst (register_all evs h) = map pop_last evs /\
  _capabilities (snd (register_all evs h)) = _capabilities h /\
  forall e', active_handlers (snd (register_all evs h)) e' =
             active_handlers h e' ++ repeat (entry_for e') (occurrences e' evs).
Proof.
  revert h. induction evs as [|e evs IH]; intros h.
  - simpl. repeat split. intros e'. now rewrite app_nil_r.
  - cbn [register_all hooks_register mock_coordinator].
    destruct (mock_register e Broadcast_handler 1000 ("event-broadcast:" +:+ e) h)
      as [u h1] eqn:Hreg.
    destruct (IH h1) as (Hfst & Hcap & Hact).
    destruct (register_all evs h1) as [us h2]. cbn [fst snd] in *.
    assert (Hu : u = pop_last e) by (unfold mock_register in Hreg; congruence).
    assert (Hh1 : h1 = snd (mock_register e Broadcast_handler 1000
                              ("event-broadcast:" +:+ e) h)) by now rewrite Hreg.
    split; [now rewrite Hu, Hfst|]. split.
    + rewrite Hcap, Hh1. reflexivity.
    + intros e'. rewrite Hact, Hh1, active_after_register, occurrences_cons.
      destruct (String.eqb_spec e e') as [->|Hne]; [|reflexivity].
      rewrite <- app_assoc. reflexivity.
Qed.

(** Releasing the callables of [evs] on the test double. *)
Lemma mock_release_all (evs : list string) h :
  (forall e, In e (fst (release_all (map pop_last evs) h)) -> derives_Exception e = true) /\
  _capabilities (snd (release_all (map pop_last evs) h)) = _capabilities h /\
  forall e', active_handlers (snd (release_all (map pop_last evs) h)) e' =
             pop_times (occurrences e' evs) (active_handlers h e').
Proof.
  revert h. induction evs as [|e evs IH]; intros h.
  - simpl. repeat split. intros e [].
  - destruct (IH (snd (mock_unregister (pop_last e) h))) as (Herr & Hcap & Hact).
    split; [|split].
    + cbn [map release_all call_unregister mock_coordinator].
      destruct (mock_unregister (pop_last e) h) as [[[]|x] h1] eqn:Hun;
        cbn [snd] in Herr; [exact Herr|].
      destruct (release_all (map pop_last evs) h1) as [es h2]. cbn [fst] in *.
      intros e0 [<-|Hin]; [|now apply Herr].
      unfold mock_unregister in Hun.
      destruct (_registered_handlers h !! e) as [[|y l]|]; inversion Hun. reflexivity.
    + cbn [map]. rewrite release_all_cons_host. cbn [call_unregister mock_coordinator].
      rewrite Hcap. apply unregister_keeps_capabilities.
    + intros e'. cbn [map]. rewrite release_all_cons_host.
      cbn [call_unregister mock_coordinator].
      rewrite Hact, active_after_unregister, occurrences_cons.
      destruct (String.eqb e e'); reflexivity.
Qed.

Lemma removelast_repeat {A : Type} (l : list A) (x : A) (k : nat) :
  pop_times k (l ++ repeat x k) = l.
Proof.
  induction k as [|k IH].
  - simpl. apply app_nil_r.
  - cbn [repeat pop_times]. rewrite repeat_cons, app_assoc.
    rewrite removelast_last. exact IH.
Qed.

(** X13.  On the test double, [mount] adds one entry per concrete event
    to the list of that event, and the cleanup it returns takes them all
    off again: afterwards every event has the handlers it had before the
    mount (none at all on a fresh coordinator), the capabilities are
    untouched and nothing is retained. *)
Theorem mock_mount_cleanup_restores_handlers (config : Config) w :
  exists broadcaster w1 broadcaster' w2,
    mount (Some config) w = (Ok broadcaster, w1) /\
    cleanup broadcaster w1 = (Ok broadcaster', w2) /\
    (forall e, active_handlers (host w1) e =
               active_handlers (host w) e
               ++ repeat (entry_for e)
                    (occurrences e (concrete_events (new_broadcaster (Handle:=unregister)
                                                       config)))) /\
    (forall e, active_handlers (host w2) e = active_handlers (host w) e) /\
    _capabilities (host w2) = _capabilities (host w) /\
    _unregister_funcs broadcaster' = [].
Proof.
  set (evs := concrete_events (new_broadcaster (Handle:=unregister) config)).
  destruct (mock_register_all evs (host w)) as (Hfst & Hcap & Hact).
  destruct (mock_release_all evs (snd (register_all evs (host w))))
    as (Herr & Hcap' & Hact').
  destruct (mount_cleanup_run config w)
    as (b & w1 & regs & b' & w2 & Hmount & Hh1 & _ & _ & _ & _ & Hclean & Hh2 & _ & Hb').
  { fold evs. rewrite Hfst. exact Herr. }
  fold evs in Hh1, Hh2. rewrite Hfst in Hh2.
  exists b, w1, b', w2. split; [exact Hmount|]. split; [exact Hclean|].
  split; [|split; [|split; [|exact Hb']]].
  - intros e. rewrite Hh1. apply Hact.
  - intros e. rewrite Hh2, Hact', Hact. apply removelast_repeat.
  - rewrite Hh2, Hcap', Hcap. reflexivity.
Qed.

(** One dispatched event when [track_broadcast] is the capability. *)
Lemma track_broadcast_step self (event : string) (data : payload) w :
  get_capability (capability_name self) (host w) = Some track_broadcast ->
  exists w',
    _broadcast_handler self event data w = (Ok continue_, w') /\
    _capabilities (host w') = _capabilities (host w) /\
    broadcast_calls (host w') =
      broadcast_calls (host w)
      ++ (if _matches_pattern self event then [(event, data)] else []).
Proof.
  intros Hc. destruct (_matches_pattern self event) eqn:Hm.
  - unfold _broadcast_handler, bind, try_except_Exception, do_get_capability.
    rewrite Hm. cbv beta iota. cbn [negb]. rewrite Hc. cbn.
    eexists. repeat split.
  - rewrite (handler_unmatched self event data w Hm).
    exists w. rewrite app_nil_r. repeat split.
Qed.

(** X14.  With [track_broadcast] registered under the configured name,
    a sequence of dispatched events is relayed in order and unchanged:
    the accumulator grows by exactly the dispatched pairs whose event name
    matches, in dispatch order, and the handler never raises. *)
Theorem events_are_relayed_in_order self (evs : list (string * payload)) w :
  get_capability (capability_name self) (host w) = Some track_broadcast ->
  exists w',
    dispatch_all self evs w = (Ok tt, w') /\
    broadcast_calls (host w') =
      broadcast_calls (host w)
      ++ List.filter (fun ev => _matches_pattern self (fst ev)) evs.
Proof.
  revert w. induction evs as [|[event data] evs IH]; intros w Hc.
  - exists w. split; [reflexivity | now rewrite app_nil_r].
  - destruct (track_broadcast_step self event data w Hc) as (w1 & Hrun & Hcap & Hacc).
    destruct (IH w1) as (w2 & Hrun2 & Hacc2).
    { unfold get_capability in *. cbn in *. unfold mock_get_capability in *.
      now rewrite Hcap. }
    exists w2. unfold dispatch_all in *. cbn [for_each fst snd].
    unfold bind at 1 2. rewrite Hrun. cbn. split; [exact Hrun2|].
    rewrite Hacc2, Hacc. cbn [List.filter fst].
    destruct (_matches_pattern self event); rewrite <- app_assoc; reflexivity.
Qed.


End OnTheMock.

(* ===================================================================== *)
(** ** These properties on the scenarios *)
(* ===================================================================== *)

(** "tool:pre" is one of the names ["tool:*"] is expanded to. *)
Lemma registered_events_match_witness :
  In "tool:pre" (concrete_events (new_broadcaster (Handle:=unregister) wildcard_config)) /\
  _matches_pattern (new_broadcaster (Handle:=unregister) wildcard_config) "tool:pre" = true.
Proof.
  assert (Hin : In "tool:pre"
                  (concrete_events (new_broadcaster (Handle:=unregister) wildcard_config)))
    by (cbn; tauto).
  split; [exact Hin|].
  exact (registered_events_match (new_broadcaster wildcard_config) "tool:pre" Hin).
Defined.

Lemma matching_ignores_order_and_repetition_witness :
  _matches_pattern (new_broadcaster (Handle:=unregister) mixed_config) "content_block:end" =
  _matches_pattern (new_broadcaster (Handle:=unregister) shuffled_config) "content_block:end".
Proof.
  apply (matching_ignores_order_and_repetition (Handle:=unregister)
           mixed_config shuffled_config "content_block:end").
  intros e. cbn. tauto.
Defined.

Lemma handler_does_not_catch_non_Exception_witness :
  exists w' delta,
    _broadcast_handler test_broadcaster "test:event" test_data with_interrupted_broadcast
      = (Raise KeyboardInterrupt, w') /\
    calls w' = calls with_interrupted_broadcast ++ delta /\
    capability_calls delta
      = [(sync_function (Some KeyboardInterrupt), "test:event", test_data)] /\
    logs w' = logs with_interrupted_broadcast.
Proof.
  apply (handler_does_not_catch_non_Exception test_broadcaster "test:event" test_data
           with_interrupted_broadcast (sync_function (Some KeyboardInterrupt))
           KeyboardInterrupt); reflexivity.
Defined.

Lemma plain_function_result_is_not_awaited_witness :
  _broadcast_handler test_broadcaster "test:event" test_data with_plain_broadcast =
  (Ok continue_,
   mkWorld (host with_plain_broadcast)
     (calls with_plain_broadcast
      ++ [GetCapability (capability_name test_broadcaster);
          CallCapability (sync_function None) "test:event" test_data])
     (logs with_plain_broadcast ++ [mkLog DEBUG ("Broadcast event: " +:+ "test:event")])).
Proof.
  apply (plain_function_result_is_not_awaited test_broadcaster "test:event" test_data
           with_plain_broadcast (sync_function None) (Plain "NoneType")
           (host with_plain_broadcast));
    reflexivity.
Defined.


Lemma unmatched_events_leave_no_trace_witness :
  (forall ev w0, In ev [("session:start", test_data); ("tool:pre", test_data)] ->
                 _broadcast_handler test_broadcaster (fst ev) (snd ev) w0
                 = (Ok continue_, w0)) /\
  action continue_ = "continue" /\
  dispatch_all test_broadcaster [("session:start", test_data); ("tool:pre", test_data)]
    with_mock_broadcast = (Ok tt, with_mock_broadcast).
Proof.
  apply (unmatched_events_leave_no_trace test_broadcaster
           [("session:start", test_data); ("tool:pre", test_data)] with_mock_broadcast).
  intros ev [<-|[<-|[]]]; reflexivity.
Defined.


Lemma unregister_handlers_stops_at_non_Exception_witness :
  exists w',
    unregister_handlers holding_interrupted without_broadcast
      = (Raise KeyboardInterrupt, w') /\
    calls w' = calls without_broadcast
               ++ map CallUnregister ([pop_last "tool:pre"] ++ [raising KeyboardInterrupt]).
Proof.
  apply (unregister_handlers_stops_at_non_Exception holding_interrupted without_broadcast
           [pop_last "tool:pre"] (raising KeyboardInterrupt) [pop_last "tool:post"]
           KeyboardInterrupt).
  - reflexivity.
  - intros e H. vm_compute in H. destruct H as [<-|[]]. reflexivity.
  - reflexivity.
  - reflexivity.
Defined.


(** [test_full_event_flow]. *)
Lemma events_are_relayed_in_order_witness :
  exists w',
    dispatch_all (new_broadcaster flow_config) flow_events with_track_broadcast
      = (Ok tt, w') /\
    broadcast_calls (host w') =
      broadcast_calls (host with_track_broadcast)
      ++ List.filter (fun ev => _matches_pattern
                                  (new_broadcaster (Handle:=unregister) flow_config) (fst ev))
           flow_events.
Proof.
  apply (events_are_relayed_in_order (new_broadcaster flow_config) flow_events
           with_track_broadcast).
  reflexivity.
Defined.


(* ===================================================================== *)
(** ** What registration and unregistration leave out *)
(* ===================================================================== *)

Section Limits.

Context {Host Capability Awaitable Handle Payload : Type}.
Context {coordinator : Coordinator Host Capability Awaitable Handle Payload}.

Abbreviation world := (World Host Capability Awaitable Handle Payload).
Implicit Types (self : EventBroadcaster Handle) (w : world).

Lemma append_inj_l (p s s' : string) : p +:+ s = p +:+ s' -> s = s'.
Proof.
  induction p as [|a p IH]; intros H.
  - exact H.
  - rewrite !PyStrFacts.append_cons in H. injection H as H. now apply IH.
Qed.

(** X16.  The expansion of a pattern is static: an event name made of
    the pattern's prefix and anything else than one of the seven suffixes
    (the bare prefix included) passes [_matches_pattern], and the pattern
    contributes no registration for it. *)
Theorem pattern_expansion_is_static self (pattern rest : string) :
  In pattern (event_patterns self) ->
  ~ In rest SUFFIXES ->
  _matches_pattern self (PyStr.rstrip star pattern +:+ rest) = true /\
  ~ In (PyStr.rstrip star pattern +:+ rest) (expand_pattern pattern).
Proof.
  intros Hp Hrest. split.
  - apply matches_pattern_iff. right. exists pattern. split; [assumption|].
    apply startswith_append.
  - unfold expand_pattern. rewrite in_map_iff. intros (suffix & Heq & Hin).
    apply append_inj_l in Heq. subst suffix. contradiction.
Qed.

(** X17.  Unregistering does not switch the handler off: once
    [unregister_handlers] has returned, a call of the handler of the same
    broadcaster does exactly what it did before; that it is no longer
    called is left to the callables the host returned. *)
Theorem handler_unchanged_by_unregister self w (event : string) (data : Payload) w0 :
  (forall e, In e (fst (release_all (_unregister_funcs self) (host w))) ->
             derives_Exception e = true) ->
  exists self' w',
    unregister_handlers self w = (Ok self', w') /\
    _unregister_funcs self' = [] /\
    _broadcast_handler self' event data w0 = _broadcast_handler self event data w0.
Proof.
  intros Herr. unfold unregister_handlers, bind.
  rewrite (for_each_unregister_run _ self w Herr). cbn.
  eexists _, _. repeat split.
Qed.

End Limits.

Lemma pattern_expansion_is_static_witness :
  _matches_pattern (new_broadcaster (Handle:=unregister) tool_wildcard_config)
    (PyStr.rstrip star "tool:*" +:+ "call") = true /\
  ~ In (PyStr.rstrip star "tool:*" +:+ "call") (expand_pattern "tool:*").
Proof.
  apply (pattern_expansion_is_static (new_broadcaster tool_wildcard_config) "tool:*" "call").
  - cbn. tauto.
  - cbn. intros H. repeat (destruct H as [H|H]; [discriminate|]). exact H.
Defined.

Lemma handler_unchanged_by_unregister_witness :
  exists self' w',
    unregister_handlers holding_three without_broadcast = (Ok self', w') /\
    _unregister_funcs self' = [] /\
    _broadcast_handler self' "tool:pre" test_data with_mock_broadcast
    = _broadcast_handler holding_three "tool:pre" test_data with_mock_broadcast.
Proof.
  apply (handler_unchanged_by_unregister holding_three without_broadcast
           "tool:pre" test_data with_mock_broadcast).
  intros e H. vm_compute in H. destruct H as [<-|[<-|[<-|[]]]]; reflexivity.
Defined.

(** [test_full_event_flow], evaluated. *)
Example full_event_flow :
  fst (dispatch_all (new_broadcaster flow_config) flow_events with_track_broadcast) = Ok tt /\
  broadcast_calls
    (host (snd (dispatch_all (new_broadcaster flow_config) flow_events with_track_broadcast)))
  = flow_events.
Proof. split; reflexivity. Qed.


